(** * CourseNest backend: registration, login and entitlement-gated access

    A shallow embedding of [server/server.js].  Every route handler is a
    function in a small state-and-exception monad over a [World] holding the
    relational store behind [pool], the console, the process environment and
    the clock.  The external libraries ([bcrypt], [jsonwebtoken]) enter as
    section variables.

    Conventions:
    - a table is the list of its rows, in insertion order; a statement reads
      or extends it, and [pool.query] may throw instead of running it;
    - identifiers are integers, and an identifier is falsy exactly when it
      is 0; textual request fields are strings or absent, and a field is
      falsy when it is absent or empty;
    - a token is kept as the record of its claims and signature rather than
      as its base64 text.
    Express routing, the CORS policy and the per-request method/url logger
    are left out. *)

From Stdlib Require Import ZArith List String Bool Lia.
Import ListNotations.

Open Scope string_scope.
Open Scope list_scope.
Open Scope Z_scope.

(** ** Rows of the relational store

    The columns are the ones the SQL text of [server.js] names.  Columns the
    handlers can fill from an unvalidated request field are nullable. *)

Module User.
Record t := mk { id : Z; name : string; email : string; password : string }.
End User.

Module Payment.
Record t := mk { user_id : Z; course_id : option Z; payment_method : option string }.
End Payment.

Module Course.
Record t := mk { id : Z; attributes : string }.
End Course.

Module Video.
Record t := mk { id : Z; course_id : Z; attributes : string }.
End Video.

(** The payload [{ id, email }] that the Access Middleware leaves in
    [req.user]. *)
Module Identity.
Record t := mk { id : Z; email : string }.
End Identity.

(** [req.body] after [express.json()]: a field that the client left out is
    [None] (JavaScript [undefined]). *)
Module Body.
Record t := mk {
  name : option string;
  email : option string;
  password : option string;
  courseId : option Z;
  paymentMethod : option string
}.
End Body.

Record Request := mkRequest {
  body : Body.t;
  user : option Identity.t;      (* req.user *)
  params_id : Z                  (* req.params.id, read by the store as an integer *)
}.

(** ** The store *)

Record Db := mkDb {
  users : list User.t;
  users_id_seq : Z;              (* next value of the generated users.id *)
  payments : list Payment.t;
  courses : list Course.t;
  videos : list Video.t
}.

Definition set_users (d : Db) (us : list User.t) (next : Z) : Db :=
  mkDb us next (payments d) (courses d) (videos d).

Definition set_payments (d : Db) (ps : list Payment.t) : Db :=
  mkDb (users d) (users_id_seq d) ps (courses d) (videos d).

(** SQL equality against a parameter: a NULL parameter or a NULL column
    matches nothing. *)
Definition sql_eq_Z (column : option Z) (param : option Z) : bool :=
  match column, param with
  | Some a, Some b => a =? b
  | _, _ => false
  end.

(** [SELECT * FROM courses] *)
Definition select_courses (d : Db) : list Course.t := courses d.

(** [SELECT * FROM users WHERE email = $1] *)
Definition select_users_by_email (email : string) (d : Db) : list User.t :=
  filter (fun u => String.eqb (User.email u) email) (users d).

(** [INSERT INTO users (name, email, password) VALUES ($1, $2, $3) RETURNING *] *)
Definition insert_user (name email password : string) (d : Db) : list User.t * Db :=
  let row := User.mk (users_id_seq d) name email password in
  ([row], set_users d (users d ++ [row]) (users_id_seq d + 1)).

(** [SELECT * FROM payments WHERE user_id = $1 AND course_id = $2] *)
Definition select_payments (userId : Z) (courseId : option Z) (d : Db) : list Payment.t :=
  filter (fun p => (Payment.user_id p =? userId) && sql_eq_Z (Payment.course_id p) courseId)
         (payments d).

(** [INSERT INTO payments (user_id, course_id, payment_method) VALUES ($1, $2, $3)] *)
Definition insert_payment (userId : Z) (courseId : option Z) (paymentMethod : option string)
    (d : Db) : Db :=
  set_payments d (payments d ++ [Payment.mk userId courseId paymentMethod]).

(** [SELECT c.* FROM courses c JOIN payments p ON p.course_id = c.id
     WHERE p.user_id = $1]: one output row per matching (course, payment)
    pair. *)
Definition select_my_courses (userId : Z) (d : Db) : list Course.t :=
  flat_map
    (fun c =>
       map (fun _ => c)
           (filter (fun p => sql_eq_Z (Payment.course_id p) (Some (Course.id c))
                             && (Payment.user_id p =? userId))
                   (payments d)))
    (courses d).

(** [SELECT * FROM videos WHERE course_id = $1] *)
Definition select_videos (courseId : Z) (d : Db) : list Video.t :=
  filter (fun v => Video.course_id v =? courseId) (videos d).

(** ** The console

    A line is the list of the arguments given to [console.log] (standard
    output) or [console.error] (standard error). *)

Inductive LogArg :=
| LStr (s : string)
| LNum (n : Z)
| LOptNum (n : option Z)
| LBody (b : Body.t).

Inductive LogStream := StdOut | StdErr.

Definition LogLine : Type := LogStream * list LogArg.

(** ** The world a handler runs in *)

Record World := mkWorld {
  db : Db;
  faults : list (option string);   (* outcome of the coming store calls:
                                      [Some msg] makes [pool.query] throw *)
  console : list LogLine;
  JWT_SECRET : option string;      (* process.env.JWT_SECRET *)
  Date_now : Z                     (* Date.now(), milliseconds *)
}.

Definition set_db (w : World) (d : Db) (fs : list (option string)) : World :=
  mkWorld d fs (console w) (JWT_SECRET w) (Date_now w).

Definition set_console (w : World) (c : list LogLine) : World :=
  mkWorld (db w) (faults w) c (JWT_SECRET w) (Date_now w).

(** ** State and exceptions *)

Inductive Result (A : Type) :=
| Ok (a : A)
| Throw (message : string).
Arguments Ok {A} a.
Arguments Throw {A} message.

Definition M (A : Type) : Type := World -> Result A * World.

Definition ret {A} (a : A) : M A := fun w => (Ok a, w).

Definition bind {A B} (m : M A) (k : A -> M B) : M B :=
  fun w =>
    match m w with
    | (Ok a, w') => k a w'
    | (Throw e, w') => (Throw e, w')
    end.

Definition throw {A} (e : string) : M A := fun w => (Throw e, w).

(** [try { m } catch (err) { h err.message }] *)
Definition try_catch {A} (m : M A) (h : string -> M A) : M A :=
  fun w =>
    match m w with
    | (Ok a, w') => (Ok a, w')
    | (Throw e, w') => h e w'
    end.

Declare Scope handler_scope.
Delimit Scope handler_scope with handler.
Notation "x <- m ;; k" := (bind m (fun x => k))
  (at level 61, m at next level, right associativity) : handler_scope.
Notation "m ;; k" := (bind m (fun _ => k))
  (at level 61, right associativity) : handler_scope.
Open Scope handler_scope.

Definition console_log (args : list LogArg) : M unit :=
  fun w => (Ok tt, set_console w (console w ++ [(StdOut, args)])).

Definition console_error (args : list LogArg) : M unit :=
  fun w => (Ok tt, set_console w (console w ++ [(StdErr, args)])).

(** [await pool.query(...)]: the store either throws or runs the statement. *)
Definition pool_query {A} (statement : Db -> A * Db) : M A :=
  fun w =>
    match faults w with
    | Some e :: fs => (Throw e, set_db w (db w) fs)
    | None :: fs => let (a, d) := statement (db w) in (Ok a, set_db w d fs)
    | [] => let (a, d) := statement (db w) in (Ok a, set_db w d [])
    end.

(** [process.env.JWT_SECRET] *)
Definition process_env_JWT_SECRET : M (option string) :=
  fun w => (Ok (JWT_SECRET w), w).

Definition reading {A} (q : Db -> A) : Db -> A * Db := fun d => (q d, d).
Definition writing (q : Db -> Db) : Db -> unit * Db := fun d => (tt, q d).

(** JavaScript truthiness of a string-valued field ([!x] is its negation). *)
Definition truthy (v : option string) : bool :=
  match v with
  | Some s => negb (String.eqb s "")
  | None => false
  end.

(** The string a truthy field holds. *)
Definition str (v : option string) : string :=
  match v with
  | Some s => s
  | None => ""
  end.

(** ** Session tokens

    What [jwt.sign] puts in a token: the payload, the issue and expiry
    instants in seconds, and the signature over them. *)

Module Claims.
Record t := mk { id : Z; email : string; iat : Z; exp : Z }.
End Claims.

Record Token := mkToken { claims : Claims.t; signature : string }.

(** ** Responses *)

Inductive Json :=
| JText (text : string)
| JMessage (message : string)
| JMessageError (message error : string)
| JCourses (rows : list Course.t)
| JRegistered (message : string) (user : option User.t)
| JLogin (message : string) (token : Token) (user : User.t)
| JPayment (message : string) (courseId : option Z)
| JPurchased (purchasedCourses : list Course.t)
| JVideos (rows : list Video.t).

Record Response := mkResponse { status : Z; json : Json }.

(** [res.status(code).json(j)], [res.json(j)] and [res.send(text)] *)
Definition res_status_json (code : Z) (j : Json) : Response := mkResponse code j.
Definition res_json (j : Json) : Response := mkResponse 200 j.
Definition res_send (text : string) : Response := mkResponse 200 (JText text).

(** The failures of the Access Middleware, as section 7 of the
    specification names them. *)
Inductive AuthError := MissingTokenError | InvalidTokenError | ExpiredTokenError.

(** ** The route handlers *)

Section Handlers.

(** [bcrypt.hash(data, rounds)] with the salt it draws made explicit, and
    [bcrypt.compare(data, encrypted)]. *)
Variable bcrypt_hash : string -> Z -> string -> string.
Variable bcrypt_compare : string -> string -> bool.

(** The keyed signature [jsonwebtoken] computes over a token's claims. *)
Variable hmac : string -> Claims.t -> string.

(** [jwt.sign(payload, secret, { expiresIn })], [expiresIn] in seconds. *)
Definition jwt_sign (payload : Identity.t) (secret : string) (expiresIn : Z) : M Token :=
  fun w =>
    let iat := Date_now w / 1000 in
    let c := Claims.mk (Identity.id payload) (Identity.email payload) iat (iat + expiresIn) in
    (Ok (mkToken c (hmac secret c)), w).

(** The span ["1h"] in seconds. *)
Definition one_hour : Z := 3600.

(** [GET /] *)
Definition root (req : Request) : M Response :=
  ret (res_send "✅ CourseNest Backend Running Successfully!").

(** [GET /courses] *)
Definition get_courses (req : Request) : M Response :=
  try_catch
    (result <- pool_query (reading select_courses) ;;
     ret (res_json (JCourses result)))
    (fun error =>
       console_error [LStr "❌ Error fetching courses:"; LStr error] ;;
       ret (res_status_json 500 (JMessage "Error fetching courses"))).

(** [POST /register]; [salt] is the salt [bcrypt.hash] draws.  Past the
    guard the three fields are truthy, and [str] reads their text. *)
Definition register (salt : string) (req : Request) : M Response :=
  let name := Body.name (body req) in
  let email := Body.email (body req) in
  let password := Body.password (body req) in
  console_log [LStr "➡️ Register request:"; LBody (body req)] ;;
  if negb (truthy name) || negb (truthy email) || negb (truthy password) then
    ret (res_status_json 400 (JMessage "All fields are required"))
  else
    try_catch
      (existingUser <- pool_query (reading (select_users_by_email (str email))) ;;
       if (0 <? List.length existingUser)%nat then
         ret (res_status_json 400 (JMessage "User already exists"))
       else
         let hashedPassword := bcrypt_hash salt 10 (str password) in
         result <- pool_query (insert_user (str name) (str email) hashedPassword) ;;
         ret (res_status_json 201
                (JRegistered "User registered successfully" (nth_error result 0))))
      (fun err =>
         console_error [LStr "❌ DB Error:"; LStr err] ;;
         ret (res_status_json 500 (JMessageError "Database error" err))).

(** [POST /login] *)
Definition login (req : Request) : M Response :=
  let email := Body.email (body req) in
  let password := Body.password (body req) in
  console_log [LStr "➡️ Login request:"; LBody (body req)] ;;
  if negb (truthy email) || negb (truthy password) then
    ret (res_status_json 400 (JMessage "Both fields are required"))
  else
    try_catch
      (result <- pool_query (reading (select_users_by_email (str email))) ;;
       match nth_error result 0 with
       | None => ret (res_status_json 401 (JMessage "Invalid email or password"))
       | Some user =>
         let isMatch := bcrypt_compare (str password) (User.password user) in
         if negb isMatch then
           ret (res_status_json 401 (JMessage "Invalid email or password"))
         else
           secret <- process_env_JWT_SECRET ;;
           if negb (truthy secret) then
             console_error [LStr "❌ JWT_SECRET not found in environment variables!"] ;;
             ret (res_status_json 500 (JMessage "Server misconfiguration"))
           else
             token <- jwt_sign (Identity.mk (User.id user) (User.email user))
                               (str secret) one_hour ;;
             ret (res_json (JLogin "Login successful" token user))
       end)
      (fun err =>
         console_error [LStr "❌ Login Error:"; LStr err] ;;
         ret (res_status_json 500 (JMessageError "Server error" err))).

(** [POST /payment], after [verifyToken] has filled [req.user].  The guard
    [!req.user?.id] holds when [req.user] is absent or its [id] is 0.  The
    pieces of the template literal it logs are listed one by one. *)
Definition payment (req : Request) : M Response :=
  let courseId := Body.courseId (body req) in
  let paymentMethod := Body.paymentMethod (body req) in
  match user req with
  | None => ret (res_status_json 403 (JMessage "Unauthorized"))
  | Some u =>
    if Identity.id u =? 0 then
      ret (res_status_json 403 (JMessage "Unauthorized"))
    else
      let userId := Identity.id u in
      try_catch
        (existing <- pool_query (reading (select_payments userId courseId)) ;;
         if (0 <? List.length existing)%nat then
           ret (res_status_json 409 (JMessage "You have already purchased this course."))
         else
           pool_query (writing (insert_payment userId courseId paymentMethod)) ;;
           console_log [LStr "✅ Payment recorded for user "; LNum userId;
                        LStr ", course "; LOptNum courseId] ;;
           ret (res_json (JPayment "Payment successful" courseId)))
        (fun err =>
           console_error [LStr "❌ Payment error:"; LStr err] ;;
           ret (res_status_json 500 (JMessage "Server error")))
  end.

(** [GET /my-courses], after [verifyToken]; reading [req.user.id] of an
    absent [req.user] throws before the [try] block is entered. *)
Definition my_courses (req : Request) : M Response :=
  match user req with
  | None => throw "Cannot read properties of undefined (reading 'id')"
  | Some u =>
    let userId := Identity.id u in
    try_catch
      (result <- pool_query (reading (select_my_courses userId)) ;;
       ret (res_json (JPurchased result)))
      (fun err =>
         console_error [LStr "❌ Error fetching purchased courses:"; LStr err] ;;
         ret (res_status_json 500 (JMessage "Server error")))
  end.

(** [GET /course/:id/videos], after [verifyToken].  [SELECT 1 FROM payments
    WHERE ...] yields one row per matching payment, so its row count is that
    of [select_payments]. *)
Definition course_videos (req : Request) : M Response :=
  match user req with
  | None => ret (res_status_json 403 (JMessage "Unauthorized"))
  | Some u =>
    if Identity.id u =? 0 then
      ret (res_status_json 403 (JMessage "Unauthorized"))
    else
      let id := params_id req in
      try_catch
        (purchased <- pool_query (reading (select_payments (Identity.id u) (Some id))) ;;
         if (List.length purchased =? 0)%nat then
           ret (res_status_json 403
                  (JMessage "Access denied. You have not purchased this course."))
         else
           videos <- pool_query (reading (select_videos id)) ;;
           ret (res_json (JVideos videos)))
        (fun err =>
           console_error [LStr "❌ Failed to fetch videos:"; LStr err] ;;
           ret (res_status_json 500 (JMessage "Server error")))
  end.

(** Modelled from the spec: the Access Middleware [verifyToken], which
    [server.js] imports from [./middleware/auth.js]; that file is not among
    the sources.  Section 4.2: it extracts the bearer token from the
    [Authorization] header and fails [MissingTokenError] if absent; it
    verifies signature and expiry against the process-wide signing secret
    and fails [InvalidTokenError] on signature mismatch or
    [ExpiredTokenError] on expiry; on success it attaches the decoded
    identity [{id, email}] to the request.  [now] is the clock in
    milliseconds, compared in whole seconds as the token's instants are. *)
Definition verifyToken (secret : string) (now : Z) (authorization : option Token)
    (req : Request) : AuthError + Request :=
  match authorization with
  | None => inl MissingTokenError
  | Some token =>
    if negb (String.eqb (signature token) (hmac secret (claims token))) then
      inl InvalidTokenError
    else if Claims.exp (claims token) <=? now / 1000 then
      inl ExpiredTokenError
    else
      inr (mkRequest (body req)
                     (Some (Identity.mk (Claims.id (claims token))
                                        (Claims.email (claims token))))
                     (params_id req))
  end.

End Handlers.

(** ** Notions the properties are stated with *)

(** The store answers every call: no fault is pending. *)
Definition healthy (w : World) : Prop := faults w = [].

(** An Entitlement row for the pair exists. *)
Definition entitled (d : Db) (userId courseId : Z) : Prop :=
  exists p, In p (payments d)
            /\ Payment.user_id p = userId
            /\ Payment.course_id p = Some courseId.

(** A User row with this email exists. *)
Definition registered (d : Db) (email : string) : Prop :=
  exists u, In u (users d) /\ User.email u = email.

(** A console line shows [pw] as the [password] field of a request body. *)
Definition shows_password (pw : string) (l : LogLine) : bool :=
  existsb
    (fun a =>
       match a with
       | LBody b =>
         match Body.password b with
         | Some p => String.eqb p pw
         | None => false
         end
       | _ => false
       end)
    (snd l).

(** The world after the handler's opening [console.log] of the body. *)
Definition logged (label : string) (b : Body.t) (w : World) : World :=
  set_console w (console w ++ [(StdOut, [LStr label; LBody b])]).

(** The store of [w'] holds every User and Entitlement row of [w], and the
    same Courses and Videos. *)
Definition store_grows (w w' : World) : Prop :=
  incl (users (db w)) (users (db w'))
  /\ incl (payments (db w)) (payments (db w'))
  /\ courses (db w') = courses (db w)
  /\ videos (db w') = videos (db w).

(** A computation that, whatever it answers, only ever adds rows. *)
Definition additive {A} (m : M A) : Prop :=
  forall w, store_grows w (snd (m w)).

(** ** The service as a transition system

    One step is one request served by one of the handlers, or a move of the
    environment (pending faults, the clock, the console) that leaves the
    store alone. *)

Section Service.

Variable bcrypt_hash : string -> Z -> string -> string.
Variable bcrypt_compare : string -> string -> bool.
Variable hmac : string -> Claims.t -> string.

Inductive step (w : World) : World -> Prop :=
| step_root req : step w (snd (root req w))
| step_get_courses req : step w (snd (get_courses req w))
| step_register salt req : step w (snd (register bcrypt_hash salt req w))
| step_login req : step w (snd (login bcrypt_compare hmac req w))
| step_payment req : step w (snd (payment req w))
| step_my_courses req : step w (snd (my_courses req w))
| step_course_videos req : step w (snd (course_videos req w))
| step_environment w' : db w' = db w -> step w w'.

Inductive reachable (w : World) : World -> Prop :=
| reachable_here : reachable w w
| reachable_step w1 w2 : reachable w w1 -> step w1 w2 -> reachable w w2.

End Service.

(** ** A concrete deployment

    The scenario of section 8 of the specification: Ann registers, logs in,
    buys course 5 and watches its videos.  The two library functions are
    replaced by small stand-ins, enough to run the handlers. *)

Module Scenario.

Definition hash (salt : string) (rounds : Z) (data : string) : string :=
  ("$2b$10$" ++ data)%string.

Definition compare (data encrypted : string) : bool :=
  String.eqb encrypted ("$2b$10$" ++ data)%string.

Definition mac (secret : string) (c : Claims.t) : string :=
  (secret ++ "." ++ Claims.email c)%string.

Definition store : Db :=
  mkDb [] 1 []
       [Course.mk 5 "Proof engineering"; Course.mk 6 "Type theory"]
       [Video.mk 1 5 "intro.mp4"; Video.mk 2 6 "lambda.mp4"; Video.mk 3 5 "tactics.mp4"].

Definition world : World :=
  mkWorld store [] [] (Some "s3cret") 1700000000123.

Definition ann_body : Body.t :=
  Body.mk (Some "Ann") (Some "ann@x.com") (Some "pw123") None None.

Definition ann_row : User.t :=
  User.mk 1 "Ann" "ann@x.com" "$2b$10$pw123".

Definition ann : Identity.t := Identity.mk 1 "ann@x.com".

Definition buy_body (method : string) : Body.t :=
  Body.mk None None None (Some 5) (Some method).

Definition no_body : Body.t := Body.mk None None None None None.

(** The world once Ann has registered. *)
Definition world_registered : World :=
  snd (register hash "salt" (mkRequest ann_body None 0) world).

(** The world once Ann has bought course 5. *)
Definition world_paid : World :=
  snd (payment (mkRequest (buy_body "card") (Some ann) 0) world).

(** The same store with the signing secret missing from the environment. *)
Definition world_no_secret : World :=
  mkWorld (db world_registered) [] [] None 1700000000123.

Definition login_body (email password : string) : Body.t :=
  Body.mk None (Some email) (Some password) None None.

(** The token Ann's login yields at [Date.now() = 1700000000123]. *)
Definition ann_token : Token :=
  mkToken (Claims.mk 1 "ann@x.com" 1700000000 1700003600) "s3cret.ann@x.com".

End Scenario.

(** ** The middleware in front of the routes *)

(** [app.use((req, res, next) => { console.log(`➡️ ${req.method} ${req.url}`);
    next(); })]; the pieces of the template literal are listed one by one. *)
Definition request_logger (method url : string) : M unit :=
  console_log [LStr "➡️ "; LStr method; LStr " "; LStr url].

Definition allowedOrigins : list string :=
  [ "http://localhost:3000";
    "https://course-nest-frontend.vercel.app";
    "https://course-nest-frontend-i6mwpidfu-gargi-jains-projects-4e7a38ae.vercel.app" ].

(** [Array.prototype.includes] on strings. *)
Definition includes (l : list string) (s : string) : bool :=
  existsb (String.eqb s) l.

(** What the [origin] option of [cors] hands to its callback:
    [callback(null, true)] or [callback(new Error(message))]. *)
Inductive CorsVerdict :=
| CorsAllow
| CorsError (message : string).

(** The [origin] function given to [cors]; [origin] is the request's
    [Origin] header, absent on same-origin and non-browser requests. *)
Definition cors_origin (origin : option string) : M CorsVerdict :=
  if negb (truthy origin) || includes allowedOrigins (str origin) then
    ret CorsAllow
  else
    console_log [LStr "❌ Blocked by CORS:"; LStr (str origin)] ;;
    ret (CorsError "Not allowed by CORS").

(** ** What a computation can be relied on to do

    Three properties of a computation, each closed under the combinators the
    handlers are written with. *)

(** It never throws. *)
Definition answers {A} (m : M A) : Prop :=
  forall w, exists a, fst (m w) = Ok a.

(** Whatever it returns satisfies [P]. *)
Definition returns {A} (P : A -> Prop) (m : M A) : Prop :=
  forall w a, fst (m w) = Ok a -> P a.

(** It leaves the store as it found it. *)
Definition readonly {A} (m : M A) : Prop :=
  forall w, db (snd (m w)) = db w.

(** No two User rows share an email. *)
Definition unique_emails (d : Db) : Prop :=
  NoDup (map User.email (users d)).

(** No (user, course) pair has more than one Entitlement row. *)
Definition one_row_per_pair (d : Db) : Prop :=
  forall userId courseId,
    (List.length (select_payments userId (Some courseId) d) <= 1)%nat.

(** ** The login page ([src/pages/Login.js])

    The component's state ([email], [password], [error]) together with what
    [handleLogin] can reach in the browser: [localStorage], the router's
    location and the console. *)

Module LoginPage.

(** A value kept in [localStorage]: the token of the response, or the
    [JSON.stringify] of its [user]; [None] is JavaScript [undefined]. *)
Inductive Item :=
| ItemToken (token : option Token)
| ItemUser (user : option User.t).

Record Browser := mkBrowser {
  email : string;
  password : string;
  error : string;
  localStorage : list (string * Item);
  location : string;
  console : list (list LogArg)
}.

Definition setError (message : string) (b : Browser) : Browser :=
  mkBrowser (email b) (password b) message (localStorage b) (location b) (console b).

(** [localStorage.setItem(key, value)] replaces what the key held. *)
Definition setItem (key : string) (value : Item) (b : Browser) : Browser :=
  mkBrowser (email b) (password b) (error b)
            ((key, value) :: filter (fun kv => negb (String.eqb (fst kv) key)) (localStorage b))
            (location b) (console b).

(** [localStorage.getItem(key)] *)
Definition getItem (key : string) (b : Browser) : option Item :=
  option_map snd (find (fun kv => String.eqb (fst kv) key) (localStorage b)).

Definition navigate (to : string) (b : Browser) : Browser :=
  mkBrowser (email b) (password b) (error b) (localStorage b) to (console b).

Definition console_error (args : list LogArg) (b : Browser) : Browser :=
  mkBrowser (email b) (password b) (error b) (localStorage b) (location b)
            (console b ++ [args]).

(** [res.ok]: the status is in the range 200-299. *)
Definition ok (res : Response) : bool :=
  (200 <=? status res) && (status res <=? 299).

(** [await res.json()]: a body sent with [res.send] is plain text and does
    not parse. *)
Definition res_json_parse (res : Response) : Result Json :=
  match json res with
  | JText _ => Throw "Unexpected token in JSON"
  | j => Ok j
  end.

(** [data.message], [data.token] and [data.user] of a parsed body; a property
    the body lacks is [undefined]. *)
Definition data_message (data : Json) : option string :=
  match data with
  | JMessage m | JMessageError m _ | JRegistered m _ | JLogin m _ _ | JPayment m _ => Some m
  | JText _ | JCourses _ | JPurchased _ | JVideos _ => None
  end.

Definition data_token (data : Json) : option Token :=
  match data with
  | JLogin _ t _ => Some t
  | _ => None
  end.

Definition data_user (data : Json) : option User.t :=
  match data with
  | JLogin _ _ u => Some u
  | JRegistered _ u => u
  | _ => None
  end.

(** The body [JSON.stringify({ email, password })] carries. *)
Definition credentials (b : Browser) : Body.t :=
  Body.mk None (Some (email b)) (Some (password b)) None None.

(** [handleLogin]; [fetch] is the POST to [/login], which either throws or
    delivers a response. *)
Definition handleLogin (fetch : Body.t -> Result Response) (b : Browser) : Browser :=
  if negb (truthy (Some (email b))) || negb (truthy (Some (password b))) then
    setError "Please enter both email and password" b
  else
    let catch err :=
      setError "Something went wrong"
               (console_error [LStr "Login error:"; LStr err] b) in
    match fetch (credentials b) with
    | Throw err => catch err
    | Ok res =>
      match res_json_parse res with
      | Throw err => catch err
      | Ok data =>
        if negb (ok res) then
          setError (if truthy (data_message data) then str (data_message data)
                    else "Login failed") b
        else
          navigate "/"
            (setItem "user" (ItemUser (data_user data))
               (setItem "token" (ItemToken (data_token data)) b))
      end
    end.

End LoginPage.

(** The login page talking to this backend: the POST is answered by the
    [/login] handler run in the server's world [w]. *)
Definition post_login (bcrypt_compare : string -> string -> bool)
    (hmac : string -> Claims.t -> string) (w : World) (b : Body.t) : Result Response :=
  fst (login bcrypt_compare hmac (mkRequest b None 0) w).

(** ** Worlds and pages for the examples that follow *)

Module Outage.

(** Ann is registered and the store refuses the next statement. *)
Definition world_down : World :=
  mkWorld (db Scenario.world_registered) [Some "connection refused"] []
          (Some "s3cret") 1700000000123.

(** The store runs the next statement and refuses the one after. *)
Definition world_insert_fails : World :=
  mkWorld Scenario.store [None; Some "disk full"] [] (Some "s3cret") 1700000000123.

End Outage.

Module Page.

(** The login form as Ann filled it in, and with a mistyped password. *)
Definition ann : LoginPage.Browser :=
  LoginPage.mkBrowser "ann@x.com" "pw123" "" [] "/login" [].

Definition ann_mistyped : LoginPage.Browser :=
  LoginPage.mkBrowser "ann@x.com" "hunter2" "" [] "/login" [].

End Page.

(** ** Stepping through a handler *)

Lemma set_db_same (w : World) :
  faults w = [] -> set_db w (db w) [] = w.
Proof. destruct w; simpl; intros ->; reflexivity. Qed.

Lemma pool_query_reading_healthy {A} (q : Db -> A) (w : World) :
  healthy w -> pool_query (reading q) w = (Ok (q (db w)), w).
Proof.
  unfold healthy, pool_query, reading; intros H.
  rewrite H, (set_db_same w H); reflexivity.
Qed.

Lemma pool_query_healthy {A} (st : Db -> A * Db) (w : World) :
  healthy w ->
  pool_query st w = (Ok (fst (st (db w))), set_db w (snd (st (db w))) []).
Proof.
  unfold healthy, pool_query; intros ->.
  destruct (st (db w)); reflexivity.
Qed.

(** ** The store's queries, read as sets of rows *)

Lemma in_select_payments p userId courseId d :
  In p (select_payments userId (Some courseId) d) <->
  In p (payments d) /\ Payment.user_id p = userId /\ Payment.course_id p = Some courseId.
Proof.
  unfold select_payments; rewrite filter_In, andb_true_iff, Z.eqb_eq.
  unfold sql_eq_Z; destruct (Payment.course_id p) as [c|].
  - rewrite Z.eqb_eq; split.
    + intros (? & ? & ->); auto.
    + intros (? & ? & [= ->]); auto.
  - split; [intros (_ & _ & [=]) | intros (_ & _ & [=])].
Qed.

Lemma select_payments_nil userId courseId d :
  select_payments userId (Some courseId) d = [] <-> ~ entitled d userId courseId.
Proof.
  split.
  - intros E (p & Hp); apply in_select_payments in Hp.
    rewrite E in Hp; destruct Hp.
  - intros N; destruct (select_payments userId (Some courseId) d) as [|p l] eqn:E; auto.
    exfalso; apply N; exists p; apply in_select_payments; rewrite E; left; reflexivity.
Qed.

Lemma in_select_users_by_email u email d :
  In u (select_users_by_email email d) <-> In u (users d) /\ User.email u = email.
Proof.
  unfold select_users_by_email; rewrite filter_In, String.eqb_eq; reflexivity.
Qed.

Lemma select_users_by_email_nil email d :
  select_users_by_email email d = [] <-> ~ registered d email.
Proof.
  split.
  - intros E (u & Hu); apply in_select_users_by_email in Hu.
    rewrite E in Hu; destruct Hu.
  - intros N; destruct (select_users_by_email email d) as [|u l] eqn:E; auto.
    exfalso; apply N; exists u; apply in_select_users_by_email; rewrite E; left; reflexivity.
Qed.

Lemma in_select_videos v courseId d :
  In v (select_videos courseId d) <-> In v (videos d) /\ Video.course_id v = courseId.
Proof.
  unfold select_videos; rewrite filter_In, Z.eqb_eq; reflexivity.
Qed.

Lemma in_select_my_courses c userId d :
  In c (select_my_courses userId d) <->
  In c (courses d) /\ entitled d userId (Course.id c).
Proof.
  unfold select_my_courses, entitled; rewrite in_flat_map; split.
  - intros (c' & Hc' & Hin); apply in_map_iff in Hin.
    destruct Hin as (p & -> & Hp); apply filter_In in Hp.
    destruct Hp as (Hp & Hb); apply andb_true_iff in Hb; destruct Hb as (Hc & Hu).
    split; auto; exists p; repeat split; auto.
    + now apply Z.eqb_eq.
    + unfold sql_eq_Z in Hc; destruct (Payment.course_id p); [|discriminate].
      apply Z.eqb_eq in Hc; now subst.
  - intros (Hc & p & Hp & Hu & Hcid); exists c; split; auto.
    apply in_map_iff; exists p; split; auto.
    apply filter_In; split; auto.
    unfold sql_eq_Z; rewrite Hcid, Hu, !Z.eqb_refl; reflexivity.
Qed.

(** ** Entitlement gating: [GET /course/:id/videos] and [POST /payment] *)

Lemma course_videos_forbidden (u : Identity.t) (courseId : Z) (b : Body.t) (w : World) :
  Identity.id u <> 0 -> healthy w ->
  ~ entitled (db w) (Identity.id u) courseId ->
  course_videos (mkRequest b (Some u) courseId) w =
  (Ok (res_status_json 403 (JMessage "Access denied. You have not purchased this course.")), w).
Proof.
  intros Hid Hw Hno; unfold course_videos; cbn [user params_id].
  destruct (Z.eqb_spec (Identity.id u) 0) as [E|_]; [contradiction|].
  unfold try_catch, bind.
  rewrite (pool_query_reading_healthy _ w Hw).
  apply select_payments_nil in Hno; rewrite Hno; reflexivity.
Qed.

Lemma course_videos_entitled (u : Identity.t) (courseId : Z) (b : Body.t) (w : World) :
  Identity.id u <> 0 -> healthy w ->
  entitled (db w) (Identity.id u) courseId ->
  course_videos (mkRequest b (Some u) courseId) w =
  (Ok (res_json (JVideos (select_videos courseId (db w)))), w).
Proof.
  intros Hid Hw Hyes; unfold course_videos; cbn [user params_id].
  destruct (Z.eqb_spec (Identity.id u) 0) as [E|_]; [contradiction|].
  unfold try_catch, bind.
  rewrite (pool_query_reading_healthy _ w Hw).
  destruct (select_payments (Identity.id u) (Some courseId) (db w)) as [|p l] eqn:E.
  - apply select_payments_nil in E; contradiction.
  - cbn [List.length Nat.eqb].
    rewrite (pool_query_reading_healthy _ w Hw); reflexivity.
Qed.

(** What [POST /payment] does on a healthy store, by whether the pair is
    already entitled. *)
Lemma payment_fresh (u : Identity.t) (b : Body.t) (pid : Z) (w : World) :
  Identity.id u <> 0 -> healthy w ->
  select_payments (Identity.id u) (Body.courseId b) (db w) = [] ->
  payment (mkRequest b (Some u) pid) w =
  (Ok (res_json (JPayment "Payment successful" (Body.courseId b))),
   set_console
     (set_db w (insert_payment (Identity.id u) (Body.courseId b) (Body.paymentMethod b) (db w)) [])
     (console w ++ [(StdOut, [LStr "✅ Payment recorded for user "; LNum (Identity.id u);
                              LStr ", course "; LOptNum (Body.courseId b)])])).
Proof.
  intros Hid Hw Hno; unfold payment; cbn [user body].
  destruct (Z.eqb_spec (Identity.id u) 0) as [E|_]; [contradiction|].
  unfold try_catch, bind.
  rewrite (pool_query_reading_healthy _ w Hw), Hno.
  cbn [List.length Nat.ltb Nat.leb].
  rewrite (pool_query_healthy _ w Hw); reflexivity.
Qed.

Lemma payment_duplicate (u : Identity.t) (b : Body.t) (pid : Z) (w : World) :
  Identity.id u <> 0 -> healthy w ->
  select_payments (Identity.id u) (Body.courseId b) (db w) <> [] ->
  payment (mkRequest b (Some u) pid) w =
  (Ok (res_status_json 409 (JMessage "You have already purchased this course.")), w).
Proof.
  intros Hid Hw Hyes; unfold payment; cbn [user body].
  destruct (Z.eqb_spec (Identity.id u) 0) as [E|_]; [contradiction|].
  unfold try_catch, bind.
  rewrite (pool_query_reading_healthy _ w Hw).
  destruct (select_payments (Identity.id u) (Body.courseId b) (db w)); [contradiction|].
  reflexivity.
Qed.

(** A [200] from [POST /payment] means the row was inserted. *)
Lemma payment_success_inserts (u : Identity.t) (b : Body.t) (pid : Z) (w w1 : World) r :
  Identity.id u <> 0 -> healthy w ->
  payment (mkRequest b (Some u) pid) w = (Ok r, w1) ->
  status r = 200 ->
  healthy w1
  /\ payments (db w1) =
     payments (db w) ++ [Payment.mk (Identity.id u) (Body.courseId b) (Body.paymentMethod b)]
  /\ videos (db w1) = videos (db w)
  /\ courses (db w1) = courses (db w)
  /\ users (db w1) = users (db w).
Proof.
  intros Hid Hw Hrun Hst.
  destruct (select_payments (Identity.id u) (Body.courseId b) (db w)) as [|p l] eqn:E.
  - rewrite (payment_fresh u b pid w Hid Hw E) in Hrun.
    injection Hrun as _ <-; repeat split.
  - rewrite (payment_duplicate u b pid w Hid Hw) in Hrun by (rewrite E; discriminate).
    injection Hrun as <- _; discriminate.
Qed.

(** C1. On a healthy store and for every authenticated identity [u] (one whose
    [id] the handler accepts) and every [courseId]: [GET /course/:id/videos]
    answers 403 "Access denied" when no Entitlement row exists for
    [(u.id, courseId)]; and once [POST /payment] by [u] for [courseId] has
    answered 200, the same call answers 200 with exactly the Video rows whose
    [course_id] is [courseId]. *)
Theorem course_videos_gated (u : Identity.t) (courseId : Z) (w : World) :
  Identity.id u <> 0 -> healthy w ->
  (forall b,
      ~ entitled (db w) (Identity.id u) courseId ->
      course_videos (mkRequest b (Some u) courseId) w =
      (Ok (res_status_json 403
             (JMessage "Access denied. You have not purchased this course.")), w))
  /\
  (forall bp pid r w1 b,
      Body.courseId bp = Some courseId ->
      payment (mkRequest bp (Some u) pid) w = (Ok r, w1) ->
      status r = 200 ->
      exists rows,
        course_videos (mkRequest b (Some u) courseId) w1 = (Ok (res_json (JVideos rows)), w1)
        /\ rows = filter (fun v => Video.course_id v =? courseId) (videos (db w))
        /\ forall v, In v rows <-> In v (videos (db w)) /\ Video.course_id v = courseId).
Proof.
  intros Hid Hw; split.
  - intros b Hno; now apply course_videos_forbidden.
  - intros bp pid r w1 b Hc Hrun Hst.
    destruct (payment_success_inserts u bp pid w w1 r Hid Hw Hrun Hst)
      as (Hw1 & Hpay & Hvid & _).
    assert (Hent : entitled (db w1) (Identity.id u) courseId).
    { exists (Payment.mk (Identity.id u) (Body.courseId bp) (Body.paymentMethod bp)).
      rewrite Hpay, in_app_iff; cbn; auto. }
    exists (select_videos courseId (db w1)); split; [|split].
    + now apply course_videos_entitled.
    + unfold select_videos; now rewrite Hvid.
    + intros v; rewrite in_select_videos, Hvid; reflexivity.
Qed.

Lemma course_videos_gated_witness :
  course_videos (mkRequest Scenario.no_body (Some Scenario.ann) 5) Scenario.world =
  (Ok (res_status_json 403
         (JMessage "Access denied. You have not purchased this course.")), Scenario.world)
  /\ course_videos (mkRequest Scenario.no_body (Some Scenario.ann) 5) Scenario.world_paid =
     (Ok (res_json (JVideos [Video.mk 1 5 "intro.mp4"; Video.mk 3 5 "tactics.mp4"])),
      Scenario.world_paid).
Proof.
  destruct (course_videos_gated Scenario.ann 5 Scenario.world) as [Hdenied Hgranted].
  - discriminate.
  - reflexivity.
  - split.
    + apply Hdenied; intros (p & Hin & _); exact Hin.
    + destruct (Hgranted (Scenario.buy_body "card") 0
                  (res_json (JPayment "Payment successful" (Some 5)))
                  Scenario.world_paid Scenario.no_body
                  eq_refl eq_refl eq_refl) as (rows & Hrun & -> & _).
      exact Hrun.
Defined.

(** C3. On a healthy store, for every authenticated identity [u] and every
    [courseId] not yet purchased by [u]: the first [POST /payment] answers 200,
    the second answers 409 "already purchased" and leaves the world as it
    was, whatever payment method it names; afterwards the store holds exactly
    one Entitlement row for the pair, the one the first call wrote. *)
Theorem payment_twice (u : Identity.t) (courseId : Z) (b1 b2 : Body.t) (pid1 pid2 : Z)
    (w : World) :
  Identity.id u <> 0 -> healthy w ->
  ~ entitled (db w) (Identity.id u) courseId ->
  Body.courseId b1 = Some courseId ->
  Body.courseId b2 = Some courseId ->
  exists w1,
    payment (mkRequest b1 (Some u) pid1) w =
    (Ok (res_json (JPayment "Payment successful" (Some courseId))), w1)
    /\ payment (mkRequest b2 (Some u) pid2) w1 =
       (Ok (res_status_json 409 (JMessage "You have already purchased this course.")), w1)
    /\ payments (db w1) =
       payments (db w) ++ [Payment.mk (Identity.id u) (Some courseId) (Body.paymentMethod b1)]
    /\ select_payments (Identity.id u) (Some courseId) (db w1) =
       [Payment.mk (Identity.id u) (Some courseId) (Body.paymentMethod b1)]
    /\ List.length (select_payments (Identity.id u) (Some courseId) (db w1)) = 1%nat.
Proof.
  intros Hid Hw Hno Hb1 Hb2.
  pose proof (proj2 (select_payments_nil _ _ _) Hno) as Hnil.
  eexists; split.
  { rewrite (payment_fresh u b1 pid1 w Hid Hw) by (now rewrite Hb1).
    rewrite Hb1; reflexivity. }
  set (w1 := set_console _ _).
  assert (Hsel : select_payments (Identity.id u) (Some courseId) (db w1) =
                 [Payment.mk (Identity.id u) (Some courseId) (Body.paymentMethod b1)]).
  { unfold select_payments in *; cbn [w1 db set_console set_db insert_payment payments set_payments].
    rewrite filter_app, Hnil; cbn [filter app Payment.user_id Payment.course_id sql_eq_Z].
    now rewrite !Z.eqb_refl. }
  split; [|split; [|split]].
  - apply payment_duplicate; auto.
    + reflexivity.
    + now rewrite Hb2, Hsel.
  - reflexivity.
  - exact Hsel.
  - now rewrite Hsel.
Qed.

Lemma payment_twice_witness :
  payment (mkRequest (Scenario.buy_body "card") (Some Scenario.ann) 0) Scenario.world =
  (Ok (res_json (JPayment "Payment successful" (Some 5))), Scenario.world_paid)
  /\ payment (mkRequest (Scenario.buy_body "upi") (Some Scenario.ann) 0) Scenario.world_paid =
     (Ok (res_status_json 409 (JMessage "You have already purchased this course.")),
      Scenario.world_paid)
  /\ payments (db Scenario.world_paid) = [Payment.mk 1 (Some 5) (Some "card")].
Proof.
  destruct (payment_twice Scenario.ann 5 (Scenario.buy_body "card") (Scenario.buy_body "upi")
              0 0 Scenario.world)
    as (w1 & Hfirst & Hsecond & Hrows & _).
  - discriminate.
  - reflexivity.
  - intros (p & Hin & _); exact Hin.
  - reflexivity.
  - reflexivity.
  - assert (Hw1 : w1 = Scenario.world_paid).
    { change Scenario.world_paid
        with (snd (payment (mkRequest (Scenario.buy_body "card") (Some Scenario.ann) 0)
                           Scenario.world)).
      now rewrite Hfirst. }
    subst w1; repeat split; assumption.
Defined.

(** C7. On a healthy store, for every identity [u], [GET /my-courses] answers
    200 with rows that are, as a set, exactly the Courses [c] for which an
    Entitlement row [(u.id, c.id)] exists. *)
Theorem my_courses_exact (u : Identity.t) (b : Body.t) (pid : Z) (w : World) :
  healthy w ->
  exists rows,
    my_courses (mkRequest b (Some u) pid) w = (Ok (res_json (JPurchased rows)), w)
    /\ forall c, In c rows <->
                 In c (courses (db w)) /\ entitled (db w) (Identity.id u) (Course.id c).
Proof.
  intros Hw; exists (select_my_courses (Identity.id u) (db w)); split.
  - unfold my_courses, try_catch, bind; cbn [user].
    rewrite (pool_query_reading_healthy _ w Hw); reflexivity.
  - intros c; apply in_select_my_courses.
Qed.

Lemma my_courses_exact_witness :
  exists rows,
    my_courses (mkRequest Scenario.no_body (Some Scenario.ann) 0) Scenario.world_paid =
    (Ok (res_json (JPurchased rows)), Scenario.world_paid)
    /\ forall c, In c rows <->
                 In c (courses (db Scenario.world_paid))
                 /\ entitled (db Scenario.world_paid) 1 (Course.id c).
Proof.
  apply (my_courses_exact Scenario.ann Scenario.no_body 0 Scenario.world_paid).
  reflexivity.
Defined.

(** ** The Auth Service: [POST /register] and [POST /login] *)

Section Auth.

Variable bcrypt_hash : string -> Z -> string -> string.
Variable bcrypt_compare : string -> string -> bool.
Variable hmac : string -> Claims.t -> string.

(** What [bcrypt] promises: a hash it produced compares equal to its data. *)
Hypothesis bcrypt_compare_hash :
  forall salt data, bcrypt_compare data (bcrypt_hash salt 10 data) = true.

Lemma register_invalid salt (req : Request) (w : World) :
  negb (truthy (Body.name (body req))) || negb (truthy (Body.email (body req)))
  || negb (truthy (Body.password (body req))) = true ->
  register bcrypt_hash salt req w =
  (Ok (res_status_json 400 (JMessage "All fields are required")),
   logged "➡️ Register request:" (body req) w).
Proof.
  intros Hmissing; unfold register, bind at 1, console_log.
  rewrite Hmissing; reflexivity.
Qed.

Lemma register_duplicate salt (req : Request) (w : World) :
  truthy (Body.name (body req)) = true ->
  truthy (Body.email (body req)) = true ->
  truthy (Body.password (body req)) = true ->
  healthy w ->
  registered (db w) (str (Body.email (body req))) ->
  register bcrypt_hash salt req w =
  (Ok (res_status_json 400 (JMessage "User already exists")),
   logged "➡️ Register request:" (body req) w).
Proof.
  intros Hn He Hp Hw Hreg; unfold register, bind at 1, console_log.
  rewrite Hn, He, Hp; cbn [negb orb].
  unfold try_catch, bind.
  rewrite pool_query_reading_healthy by exact Hw.
  cbn [db set_console].
  destruct (select_users_by_email (str (Body.email (body req))) (db w)) as [|x l] eqn:E.
  - apply select_users_by_email_nil in E; contradiction.
  - reflexivity.
Qed.

Lemma register_fresh salt (req : Request) (w : World) :
  truthy (Body.name (body req)) = true ->
  truthy (Body.email (body req)) = true ->
  truthy (Body.password (body req)) = true ->
  healthy w ->
  ~ registered (db w) (str (Body.email (body req))) ->
  let row := User.mk (users_id_seq (db w))
                     (str (Body.name (body req)))
                     (str (Body.email (body req)))
                     (bcrypt_hash salt 10 (str (Body.password (body req)))) in
  register bcrypt_hash salt req w =
  (Ok (res_status_json 201 (JRegistered "User registered successfully" (Some row))),
   set_db (logged "➡️ Register request:" (body req) w)
          (set_users (db w) (users (db w) ++ [row]) (users_id_seq (db w) + 1)) []).
Proof.
  intros Hn He Hp Hw Hreg row; unfold register, bind at 1, console_log.
  rewrite Hn, He, Hp; cbn [negb orb].
  unfold try_catch, bind.
  rewrite pool_query_reading_healthy by exact Hw.
  cbn [db set_console].
  apply select_users_by_email_nil in Hreg; rewrite Hreg.
  cbn [List.length Nat.ltb Nat.leb].
  rewrite pool_query_healthy by exact Hw.
  reflexivity.
Qed.

Lemma login_unknown_email (req : Request) (w : World) :
  truthy (Body.email (body req)) = true ->
  truthy (Body.password (body req)) = true ->
  healthy w ->
  ~ registered (db w) (str (Body.email (body req))) ->
  login bcrypt_compare hmac req w =
  (Ok (res_status_json 401 (JMessage "Invalid email or password")),
   logged "➡️ Login request:" (body req) w).
Proof.
  intros He Hp Hw Hreg; unfold login, bind at 1, console_log.
  rewrite He, Hp; cbn [negb orb].
  unfold try_catch, bind.
  rewrite pool_query_reading_healthy by exact Hw.
  cbn [db set_console].
  apply select_users_by_email_nil in Hreg; rewrite Hreg.
  reflexivity.
Qed.

(** With the email known, [login] goes on with the first row the store
    returns for it. *)
Lemma login_known_email (req : Request) (w : World) (u : User.t) (rest : list User.t) :
  truthy (Body.email (body req)) = true ->
  truthy (Body.password (body req)) = true ->
  healthy w ->
  select_users_by_email (str (Body.email (body req))) (db w) = u :: rest ->
  login bcrypt_compare hmac req w =
  let w' := logged "➡️ Login request:" (body req) w in
  if negb (bcrypt_compare (str (Body.password (body req))) (User.password u)) then
    (Ok (res_status_json 401 (JMessage "Invalid email or password")), w')
  else if negb (truthy (JWT_SECRET w)) then
    (Ok (res_status_json 500 (JMessage "Server misconfiguration")),
     set_console w' (console w' ++
                     [(StdErr, [LStr "❌ JWT_SECRET not found in environment variables!"])]))
  else
    let iat := Date_now w / 1000 in
    let c := Claims.mk (User.id u) (User.email u) iat (iat + 3600) in
    (Ok (res_json (JLogin "Login successful" (mkToken c (hmac (str (JWT_SECRET w)) c)) u)), w').
Proof.
  intros He Hp Hw Hsel; unfold login, bind at 1, console_log.
  rewrite He, Hp; cbn [negb orb].
  unfold try_catch, bind at 1.
  rewrite pool_query_reading_healthy by exact Hw.
  cbn [db set_console]; rewrite Hsel; cbn [nth_error].
  destruct (bcrypt_compare _ _); cbn [negb]; [|reflexivity].
  unfold bind, process_env_JWT_SECRET; cbn [JWT_SECRET set_console].
  destruct (truthy (JWT_SECRET w)); reflexivity.
Qed.

Lemma registered_first_row (email : string) (d : Db) :
  registered d email ->
  exists u rest,
    select_users_by_email email d = u :: rest
    /\ In u (users d) /\ User.email u = email.
Proof.
  intros Hreg.
  destruct (select_users_by_email email d) as [|u rest] eqn:E.
  - apply select_users_by_email_nil in E; contradiction.
  - exists u, rest; split; auto.
    apply in_select_users_by_email; rewrite E; left; reflexivity.
Qed.

(** Every way [login] can answer 200. *)
Lemma login_success_inv (req : Request) (w w' : World) (r : Response) :
  login bcrypt_compare hmac req w = (Ok r, w') ->
  status r = 200 ->
  exists u rest,
    truthy (Body.email (body req)) = true
    /\ truthy (Body.password (body req)) = true
    /\ select_users_by_email (str (Body.email (body req))) (db w) = u :: rest
    /\ bcrypt_compare (str (Body.password (body req))) (User.password u) = true
    /\ truthy (JWT_SECRET w) = true
    /\ r = res_json
             (JLogin "Login successful"
                (let iat := Date_now w / 1000 in
                 let c := Claims.mk (User.id u) (User.email u) iat (iat + 3600) in
                 mkToken c (hmac (str (JWT_SECRET w)) c))
                u).
Proof.
  unfold login, bind at 1, console_log.
  destruct (truthy (Body.email (body req))) eqn:He; cbn [negb orb];
    [|intros [= <- _]; discriminate].
  destruct (truthy (Body.password (body req))) eqn:Hp; cbn [negb orb];
    [|intros [= <- _]; discriminate].
  unfold try_catch, bind at 1, pool_query, reading; cbn [faults db set_console].
  destruct (faults w) as [|[e|] fs];
    [ | intros [= <- _]; discriminate | ].
  all: destruct (select_users_by_email (str (Body.email (body req))) (db w))
         as [|u rest] eqn:Hsel; cbn [nth_error];
       [intros [= <- _]; discriminate|].
  all: destruct (bcrypt_compare (str (Body.password (body req))) (User.password u)) eqn:Hc;
       cbn [negb]; [|intros [= <- _]; discriminate].
  all: unfold bind, process_env_JWT_SECRET; cbn [JWT_SECRET set_db set_console].
  all: destruct (truthy (JWT_SECRET w)) eqn:Hs; cbn [negb];
       [|intros [= <- _]; discriminate].
  all: intros [= <- _] _; exists u, rest; repeat split; first [reflexivity | assumption].
Qed.

(** C2. On a healthy store with the signing secret configured: for every
    request whose [name], [email] and [password] are all present and whose
    email is not yet in the Credential Store, [POST /register] answers 201
    with the new row, whose password column is the [bcrypt] hash (10 rounds)
    of the submitted password; and a following [POST /login] with the same
    email and password answers 200 with a token and that row. *)
Theorem register_then_login salt (req req' : Request) (w : World) :
  truthy (Body.name (body req)) = true ->
  truthy (Body.email (body req)) = true ->
  truthy (Body.password (body req)) = true ->
  healthy w ->
  truthy (JWT_SECRET w) = true ->
  ~ registered (db w) (str (Body.email (body req))) ->
  Body.email (body req') = Body.email (body req) ->
  Body.password (body req') = Body.password (body req) ->
  exists row w1 token w2,
    register bcrypt_hash salt req w =
    (Ok (res_status_json 201 (JRegistered "User registered successfully" (Some row))), w1)
    /\ User.email row = str (Body.email (body req))
    /\ User.password row = bcrypt_hash salt 10 (str (Body.password (body req)))
    /\ In row (users (db w1))
    /\ login bcrypt_compare hmac req' w1 =
       (Ok (res_json (JLogin "Login successful" token row)), w2).
Proof.
  intros Hn He Hp Hw Hs Hfresh He' Hp'.
  pose proof (register_fresh salt req w Hn He Hp Hw Hfresh) as Hreg; cbv zeta in Hreg.
  set (row := User.mk _ _ _ _) in Hreg.
  set (w1 := set_db _ _ _) in Hreg.
  assert (Hsel : select_users_by_email (str (Body.email (body req'))) (db w1) = [row]).
  { rewrite He'; unfold select_users_by_email.
    cbn [w1 db set_db set_users users].
    rewrite filter_app.
    apply select_users_by_email_nil in Hfresh; unfold select_users_by_email in Hfresh.
    rewrite Hfresh; cbn [filter app row User.email].
    now rewrite String.eqb_refl. }
  assert (Hlog : login bcrypt_compare hmac req' w1 = _)
    by (apply (login_known_email req' w1 row []);
        [now rewrite He' | now rewrite Hp' | reflexivity | exact Hsel]).
  cbv zeta in Hlog.
  rewrite Hp' in Hlog; cbn [row User.password] in Hlog.
  rewrite bcrypt_compare_hash in Hlog; cbn [negb] in Hlog.
  change (JWT_SECRET w1) with (JWT_SECRET w) in Hlog.
  rewrite Hs in Hlog; cbn [negb] in Hlog.
  exists row, w1; do 2 eexists; split; [exact Hreg|].
  split; [reflexivity|]; split; [reflexivity|]; split.
  - cbn [w1 db set_db set_users users]; rewrite in_app_iff; right; left; reflexivity.
  - exact Hlog.
Qed.

(** C4. On a healthy store, for every [POST /register] request whose email is
    already in the Credential Store: the answer is a 400 and the store is left
    as it was, so no User row is created; with the three fields present the
    400 is "User already exists". *)
Theorem register_existing_email_rejected salt (req : Request) (w : World) :
  healthy w ->
  registered (db w) (str (Body.email (body req))) ->
  exists r w',
    register bcrypt_hash salt req w = (Ok r, w')
    /\ status r = 400
    /\ db w' = db w
    /\ (truthy (Body.name (body req)) = true ->
        truthy (Body.email (body req)) = true ->
        truthy (Body.password (body req)) = true ->
        r = res_status_json 400 (JMessage "User already exists")).
Proof.
  intros Hw Hreg.
  destruct (negb (truthy (Body.name (body req))) || negb (truthy (Body.email (body req)))
            || negb (truthy (Body.password (body req)))) eqn:Hmissing.
  - rewrite (register_invalid salt req w Hmissing).
    do 2 eexists; repeat split.
    intros Hn He Hp; rewrite Hn, He, Hp in Hmissing; discriminate.
  - apply orb_false_iff in Hmissing; destruct Hmissing as (Hne & Hp).
    apply orb_false_iff in Hne; destruct Hne as (Hn & He).
    apply negb_false_iff in Hn, He, Hp.
    rewrite (register_duplicate salt req w Hn He Hp Hw Hreg).
    do 2 eexists; repeat split.
Qed.

(** C5. On a healthy store, a [POST /login] whose email matches no user and a
    [POST /login] whose email matches a user but whose password does not
    verify receive the same response: 401 with the message
    "Invalid email or password". *)
Theorem login_failures_indistinguishable (req1 req2 : Request) (w : World) :
  truthy (Body.email (body req1)) = true ->
  truthy (Body.password (body req1)) = true ->
  truthy (Body.email (body req2)) = true ->
  truthy (Body.password (body req2)) = true ->
  healthy w ->
  ~ registered (db w) (str (Body.email (body req1))) ->
  registered (db w) (str (Body.email (body req2))) ->
  (forall u, In u (users (db w)) ->
             User.email u = str (Body.email (body req2)) ->
             bcrypt_compare (str (Body.password (body req2))) (User.password u) = false) ->
  fst (login bcrypt_compare hmac req1 w) =
  Ok (res_status_json 401 (JMessage "Invalid email or password"))
  /\ fst (login bcrypt_compare hmac req2 w) = fst (login bcrypt_compare hmac req1 w).
Proof.
  intros He1 Hp1 He2 Hp2 Hw Hno Hyes Hbad.
  rewrite (login_unknown_email req1 w He1 Hp1 Hw Hno).
  destruct (registered_first_row _ _ Hyes) as (u & rest & Hsel & Hin & Hmail).
  rewrite (login_known_email req2 w u rest He2 Hp2 Hw Hsel); cbv zeta.
  rewrite (Hbad u Hin Hmail); split; reflexivity.
Qed.

(** C9. On a healthy store whose runtime configuration lacks the signing
    secret: a [POST /login] with an unknown email, or with a known email and
    a password that does not verify, answers 401 "Invalid email or password";
    500 "Server misconfiguration" is the answer only once the password has
    verified. *)
Theorem login_checks_secret_last (req : Request) (w : World) :
  truthy (Body.email (body req)) = true ->
  truthy (Body.password (body req)) = true ->
  healthy w ->
  truthy (JWT_SECRET w) = false ->
  (~ registered (db w) (str (Body.email (body req))) ->
   fst (login bcrypt_compare hmac req w) =
   Ok (res_status_json 401 (JMessage "Invalid email or password")))
  /\
  (forall u rest,
      select_users_by_email (str (Body.email (body req))) (db w) = u :: rest ->
      fst (login bcrypt_compare hmac req w) =
      if bcrypt_compare (str (Body.password (body req))) (User.password u)
      then Ok (res_status_json 500 (JMessage "Server misconfiguration"))
      else Ok (res_status_json 401 (JMessage "Invalid email or password"))).
Proof.
  intros He Hp Hw Hs; split.
  - intros Hno; now rewrite (login_unknown_email req w He Hp Hw Hno).
  - intros u rest Hsel.
    rewrite (login_known_email req w u rest He Hp Hw Hsel); cbv zeta.
    rewrite Hs.
    destruct (bcrypt_compare _ _); reflexivity.
Qed.

(** C10. Whenever [POST /login] answers 200, the [user] object of the response
    body is the whole User row the store returned for the email, password
    column (the stored hash) included. *)
Theorem login_success_returns_stored_row (req : Request) (w w' : World) (r : Response) :
  login bcrypt_compare hmac req w = (Ok r, w') ->
  status r = 200 ->
  exists token u,
    json r = JLogin "Login successful" token u
    /\ nth_error (select_users_by_email (str (Body.email (body req))) (db w)) 0 = Some u
    /\ In u (users (db w))
    /\ User.email u = str (Body.email (body req))
    /\ bcrypt_compare (str (Body.password (body req))) (User.password u) = true.
Proof.
  intros Hrun Hst.
  destruct (login_success_inv req w w' r Hrun Hst)
    as (u & rest & _ & _ & Hsel & Hc & _ & ->).
  eexists; exists u; split; [reflexivity|].
  assert (Hin : In u (select_users_by_email (str (Body.email (body req))) (db w)))
    by (rewrite Hsel; left; reflexivity).
  apply in_select_users_by_email in Hin; destruct Hin.
  rewrite Hsel; repeat split; auto.
Qed.

(** C8. Every token a successful [POST /login] issues carries
    [exp = iat + 3600] with [iat] the second of issuance.  Presented with the
    secret it was signed with, the Access Middleware accepts it, resolving it
    to the user's [{id, email}], at every instant before [iat + 1h], and
    rejects it with [ExpiredTokenError] at every instant after. *)
Theorem token_expires_after_one_hour (req : Request) (w w' : World) (r : Response) :
  login bcrypt_compare hmac req w = (Ok r, w') ->
  status r = 200 ->
  exists token u,
    json r = JLogin "Login successful" token u
    /\ Claims.iat (claims token) = Date_now w / 1000
    /\ Claims.exp (claims token) = Claims.iat (claims token) + 3600
    /\ forall (now : Z) (req0 : Request),
        (now < (Claims.iat (claims token) + 3600) * 1000 ->
         verifyToken hmac (str (JWT_SECRET w)) now (Some token) req0 =
         inr (mkRequest (body req0)
                        (Some (Identity.mk (User.id u) (User.email u)))
                        (params_id req0)))
        /\ ((Claims.iat (claims token) + 3600) * 1000 < now ->
            verifyToken hmac (str (JWT_SECRET w)) now (Some token) req0 =
            inl ExpiredTokenError).
Proof.
  intros Hrun Hst.
  destruct (login_success_inv req w w' r Hrun Hst)
    as (u & rest & _ & _ & _ & _ & _ & ->).
  eexists; exists u; split; [reflexivity|]; cbv zeta; cbn [claims Claims.iat Claims.exp].
  split; [reflexivity|]; split; [reflexivity|].
  intros now req0; unfold verifyToken; cbn [signature claims Claims.exp Claims.id Claims.email].
  rewrite String.eqb_refl; cbn [negb].
  split; intros Hnow.
  - destruct (Z.leb_spec (Date_now w / 1000 + 3600) (now / 1000)) as [Hle|Hlt];
      [|reflexivity].
    exfalso.
    pose proof (Z.mod_pos_bound now 1000 ltac:(lia)).
    pose proof (Z.div_mod now 1000 ltac:(lia)).
    lia.
  - destruct (Z.leb_spec (Date_now w / 1000 + 3600) (now / 1000)) as [Hle|Hlt];
      [reflexivity|].
    exfalso.
    pose proof (Z.mod_pos_bound now 1000 ltac:(lia)).
    pose proof (Z.div_mod now 1000 ltac:(lia)).
    lia.
Qed.

End Auth.

Lemma scenario_compare_hash (salt data : string) :
  Scenario.compare data (Scenario.hash salt 10 data) = true.
Proof. apply String.eqb_refl. Qed.

Lemma register_then_login_witness :
  exists row w1 token w2,
    register Scenario.hash "salt" (mkRequest Scenario.ann_body None 0) Scenario.world =
    (Ok (res_status_json 201 (JRegistered "User registered successfully" (Some row))), w1)
    /\ User.email row = "ann@x.com"
    /\ User.password row = Scenario.hash "salt" 10 "pw123"
    /\ In row (users (db w1))
    /\ login Scenario.compare Scenario.mac
             (mkRequest (Scenario.login_body "ann@x.com" "pw123") None 0) w1 =
       (Ok (res_json (JLogin "Login successful" token row)), w2).
Proof.
  apply (register_then_login Scenario.hash Scenario.compare Scenario.mac
           scenario_compare_hash "salt"
           (mkRequest Scenario.ann_body None 0)
           (mkRequest (Scenario.login_body "ann@x.com" "pw123") None 0)
           Scenario.world); try reflexivity.
  intros (u & Hin & _); exact Hin.
Defined.

Lemma register_existing_email_rejected_witness :
  exists r w',
    register Scenario.hash "pepper" (mkRequest Scenario.ann_body None 0)
             Scenario.world_registered = (Ok r, w')
    /\ status r = 400
    /\ db w' = db Scenario.world_registered
    /\ r = res_status_json 400 (JMessage "User already exists").
Proof.
  destruct (register_existing_email_rejected Scenario.hash "pepper"
              (mkRequest Scenario.ann_body None 0) Scenario.world_registered)
    as (r & w' & Hrun & Hst & Hdb & Hkind).
  - reflexivity.
  - exists Scenario.ann_row; split; [left|]; reflexivity.
  - exists r, w'; repeat split; auto.
Defined.

Lemma login_failures_indistinguishable_witness :
  fst (login Scenario.compare Scenario.mac
             (mkRequest (Scenario.login_body "bob@x.com" "pw123") None 0)
             Scenario.world_registered) =
  Ok (res_status_json 401 (JMessage "Invalid email or password"))
  /\ fst (login Scenario.compare Scenario.mac
                (mkRequest (Scenario.login_body "ann@x.com" "hunter2") None 0)
                Scenario.world_registered) =
     fst (login Scenario.compare Scenario.mac
                (mkRequest (Scenario.login_body "bob@x.com" "pw123") None 0)
                Scenario.world_registered).
Proof.
  apply (login_failures_indistinguishable Scenario.compare Scenario.mac
           (mkRequest (Scenario.login_body "bob@x.com" "pw123") None 0)
           (mkRequest (Scenario.login_body "ann@x.com" "hunter2") None 0)
           Scenario.world_registered); try reflexivity.
  - intros (u & [<-|[]] & Hmail); discriminate Hmail.
  - exists Scenario.ann_row; split; [left|]; reflexivity.
  - intros u [<-|[]] _; reflexivity.
Defined.

Lemma login_checks_secret_last_witness :
  fst (login Scenario.compare Scenario.mac
             (mkRequest (Scenario.login_body "bob@x.com" "pw123") None 0)
             Scenario.world_no_secret) =
  Ok (res_status_json 401 (JMessage "Invalid email or password")).
Proof.
  apply (login_checks_secret_last Scenario.compare Scenario.mac
           (mkRequest (Scenario.login_body "bob@x.com" "pw123") None 0)
           Scenario.world_no_secret); try reflexivity.
  intros (u & [<-|[]] & Hmail); discriminate Hmail.
Defined.

Lemma login_success_returns_stored_row_witness :
  exists token u,
    json (res_json (JLogin "Login successful" Scenario.ann_token Scenario.ann_row)) =
    JLogin "Login successful" token u
    /\ nth_error (select_users_by_email "ann@x.com" (db Scenario.world_registered)) 0 = Some u
    /\ In u (users (db Scenario.world_registered))
    /\ User.email u = "ann@x.com"
    /\ Scenario.compare "pw123" (User.password u) = true.
Proof.
  apply (login_success_returns_stored_row Scenario.compare Scenario.mac
           (mkRequest (Scenario.login_body "ann@x.com" "pw123") None 0)
           Scenario.world_registered
           (snd (login Scenario.compare Scenario.mac
                       (mkRequest (Scenario.login_body "ann@x.com" "pw123") None 0)
                       Scenario.world_registered))
           (res_json (JLogin "Login successful" Scenario.ann_token Scenario.ann_row)));
    reflexivity.
Defined.

Lemma token_expires_after_one_hour_witness :
  exists token u,
    json (res_json (JLogin "Login successful" Scenario.ann_token Scenario.ann_row)) =
    JLogin "Login successful" token u
    /\ Claims.iat (claims token) = 1700000000
    /\ Claims.exp (claims token) = Claims.iat (claims token) + 3600
    /\ forall (now : Z) (req0 : Request),
        (now < (Claims.iat (claims token) + 3600) * 1000 ->
         verifyToken Scenario.mac "s3cret" now (Some token) req0 =
         inr (mkRequest (body req0)
                        (Some (Identity.mk (User.id u) (User.email u)))
                        (params_id req0)))
        /\ ((Claims.iat (claims token) + 3600) * 1000 < now ->
            verifyToken Scenario.mac "s3cret" now (Some token) req0 =
            inl ExpiredTokenError).
Proof.
  apply (token_expires_after_one_hour Scenario.compare Scenario.mac
           (mkRequest (Scenario.login_body "ann@x.com" "pw123") None 0)
           Scenario.world_registered
           (snd (login Scenario.compare Scenario.mac
                       (mkRequest (Scenario.login_body "ann@x.com" "pw123") None 0)
                       Scenario.world_registered))
           (res_json (JLogin "Login successful" Scenario.ann_token Scenario.ann_row)));
    reflexivity.
Defined.

(** ** What reaches the console *)

Ltac console_holds := cbn; rewrite ?in_app_iff; cbn; auto 8.

Lemma register_logs_body bcrypt_hash salt (req : Request) (w : World) :
  In (StdOut, [LStr "➡️ Register request:"; LBody (body req)])
     (console (snd (register bcrypt_hash salt req w))).
Proof.
  unfold register, bind at 1, console_log.
  destruct (negb (truthy (Body.name (body req))) || negb (truthy (Body.email (body req)))
            || negb (truthy (Body.password (body req)))); [console_holds|].
  unfold try_catch, bind, pool_query, reading, console_error, ret;
    cbn [faults db set_console console].
  destruct (faults w) as [|[e|] fs]; [|console_holds|].
  all: destruct (select_users_by_email _ (db w)) as [|x l];
    cbn [List.length Nat.ltb Nat.leb set_db faults]; [|console_holds].
  - console_holds.
  - destruct fs as [|[e|] fs]; console_holds.
Qed.

Lemma login_logs_body bcrypt_compare hmac (req : Request) (w : World) :
  In (StdOut, [LStr "➡️ Login request:"; LBody (body req)])
     (console (snd (login bcrypt_compare hmac req w))).
Proof.
  unfold login, bind at 1, console_log.
  destruct (negb (truthy (Body.email (body req)))
            || negb (truthy (Body.password (body req)))); [console_holds|].
  unfold try_catch, bind, pool_query, reading, console_error, ret,
    process_env_JWT_SECRET, jwt_sign;
    cbn [faults db set_console console JWT_SECRET].
  destruct (faults w) as [|[e|] fs]; [|console_holds|].
  all: destruct (select_users_by_email _ (db w)) as [|u l]; cbn [nth_error];
    [console_holds|].
  all: destruct (bcrypt_compare _ _); cbn [negb]; [|console_holds].
  all: cbn [set_db set_console JWT_SECRET]; destruct (truthy (JWT_SECRET w)); console_holds.
Qed.

Lemma logged_body_shows_password (label pw : string) (b : Body.t) (lines : list LogLine) :
  Body.password b = Some pw ->
  In (StdOut, [LStr label; LBody b]) lines ->
  existsb (shows_password pw) lines = true.
Proof.
  intros Hpw Hin; apply existsb_exists; eexists; split; [exact Hin|].
  unfold shows_password; cbn; now rewrite Hpw, String.eqb_refl.
Qed.

(** Whatever the outcome, the submitted password is on the console after
    [POST /register] and after [POST /login]. *)
Lemma register_shows_password bcrypt_hash salt (req : Request) (w : World) (pw : string) :
  Body.password (body req) = Some pw ->
  existsb (shows_password pw) (console (snd (register bcrypt_hash salt req w))) = true.
Proof.
  intros Hpw; eapply logged_body_shows_password; [exact Hpw|apply register_logs_body].
Qed.

Lemma login_shows_password bcrypt_compare hmac (req : Request) (w : World) (pw : string) :
  Body.password (body req) = Some pw ->
  existsb (shows_password pw) (console (snd (login bcrypt_compare hmac req w))) = true.
Proof.
  intros Hpw; eapply logged_body_shows_password; [exact Hpw|apply login_logs_body].
Qed.

(** C6 (the code departs from the claim here).  Registering Ann with the
    password "pw123" answers 201 and stores only the [bcrypt] hash (10
    rounds) of the password, but the console afterwards holds a line that
    prints the request body with the password in clear. *)
Theorem register_logs_plaintext_password :
  exists row w',
    register Scenario.hash "salt" (mkRequest Scenario.ann_body None 0) Scenario.world =
    (Ok (res_status_json 201 (JRegistered "User registered successfully" (Some row))), w')
    /\ users (db w') = [row]
    /\ User.password row = Scenario.hash "salt" 10 "pw123"
    /\ existsb (shows_password "pw123") (console w') = true
    /\ console w' = [(StdOut, [LStr "➡️ Register request:"; LBody Scenario.ann_body])].
Proof.
  do 2 eexists; repeat split.
Qed.

(** ** Rows are never removed

    The handlers only insert.  [additive] is closed under the monad's
    combinators, so each handler is additive by its shape. *)

Lemma store_grows_refl (w : World) : store_grows w w.
Proof. repeat split; apply incl_refl. Qed.

Lemma store_grows_trans (w1 w2 w3 : World) :
  store_grows w1 w2 -> store_grows w2 w3 -> store_grows w1 w3.
Proof.
  intros (Hu & Hp & Hc & Hv) (Hu' & Hp' & Hc' & Hv'); repeat split.
  - eapply incl_tran; eauto.
  - eapply incl_tran; eauto.
  - congruence.
  - congruence.
Qed.

Lemma store_grows_same_db (w w' : World) : db w' = db w -> store_grows w w'.
Proof. unfold store_grows; intros ->; repeat split; apply incl_refl. Qed.

Lemma additive_ret {A} (a : A) : additive (ret a).
Proof. intros w; apply store_grows_refl. Qed.

Lemma additive_throw {A} (e : string) : additive (@throw A e).
Proof. intros w; apply store_grows_refl. Qed.

Lemma additive_bind {A B} (m : M A) (k : A -> M B) :
  additive m -> (forall a, additive (k a)) -> additive (bind m k).
Proof.
  intros Hm Hk w; unfold bind; specialize (Hm w).
  destruct (m w) as [[a|e] w1]; cbn [snd] in *; auto.
  eapply store_grows_trans; [exact Hm | apply Hk].
Qed.

Lemma additive_try_catch {A} (m : M A) (h : string -> M A) :
  additive m -> (forall e, additive (h e)) -> additive (try_catch m h).
Proof.
  intros Hm Hh w; unfold try_catch; specialize (Hm w).
  destruct (m w) as [[a|e] w1]; cbn [snd] in *; auto.
  eapply store_grows_trans; [exact Hm | apply Hh].
Qed.

Lemma additive_console_log args : additive (console_log args).
Proof. intros w; now apply store_grows_same_db. Qed.

Lemma additive_console_error args : additive (console_error args).
Proof. intros w; now apply store_grows_same_db. Qed.

Lemma additive_process_env : additive process_env_JWT_SECRET.
Proof. intros w; apply store_grows_refl. Qed.

Lemma additive_jwt_sign hmac payload secret expiresIn :
  additive (jwt_sign hmac payload secret expiresIn).
Proof. intros w; apply store_grows_refl. Qed.

Lemma additive_pool_query {A} (st : Db -> A * Db) :
  (forall d, let d' := snd (st d) in
             incl (users d) (users d') /\ incl (payments d) (payments d')
             /\ courses d' = courses d /\ videos d' = videos d) ->
  additive (pool_query st).
Proof.
  intros Hst w; unfold pool_query; specialize (Hst (db w)); cbv zeta in Hst.
  destruct (faults w) as [|[e|] fs]; [| now apply store_grows_same_db |];
    destruct (st (db w)) as [a d]; exact Hst.
Qed.

Lemma additive_reading {A} (q : Db -> A) : additive (pool_query (reading q)).
Proof.
  apply additive_pool_query; intros d; cbn; repeat split; apply incl_refl.
Qed.

Lemma additive_insert_user name email password :
  additive (pool_query (insert_user name email password)).
Proof.
  apply additive_pool_query; intros d; cbn; repeat split.
  - apply incl_appl, incl_refl.
  - apply incl_refl.
Qed.

Lemma additive_insert_payment userId courseId paymentMethod :
  additive (pool_query (writing (insert_payment userId courseId paymentMethod))).
Proof.
  apply additive_pool_query; intros d; cbn; repeat split.
  - apply incl_refl.
  - apply incl_appl, incl_refl.
Qed.

Create HintDb additive.
#[local] Hint Resolve additive_ret additive_throw additive_console_log
  additive_console_error additive_process_env additive_jwt_sign additive_reading
  additive_insert_user additive_insert_payment : additive.

Ltac additive_shape :=
  repeat first
    [ progress auto with additive
    | apply additive_bind
    | apply additive_try_catch
    | progress cbv zeta
    | match goal with
      | |- forall _, _ => intro
      | |- additive (if ?c then _ else _) => destruct c
      | |- additive (match ?x with _ => _ end) => destruct x
      end ].

Section Monotone.

Variable bcrypt_hash : string -> Z -> string -> string.
Variable bcrypt_compare : string -> string -> bool.
Variable hmac : string -> Claims.t -> string.

Lemma additive_root req : additive (root req).
Proof. unfold root; additive_shape. Qed.

Lemma additive_get_courses req : additive (get_courses req).
Proof. unfold get_courses; additive_shape. Qed.

Lemma additive_register salt req : additive (register bcrypt_hash salt req).
Proof. unfold register; additive_shape. Qed.

Lemma additive_login req : additive (login bcrypt_compare hmac req).
Proof. unfold login; additive_shape. Qed.

Lemma additive_payment req : additive (payment req).
Proof. unfold payment; additive_shape. Qed.

Lemma additive_my_courses req : additive (my_courses req).
Proof. unfold my_courses; additive_shape. Qed.

Lemma additive_course_videos req : additive (course_videos req).
Proof. unfold course_videos; additive_shape. Qed.

Lemma step_grows (w w' : World) :
  step bcrypt_hash bcrypt_compare hmac w w' -> store_grows w w'.
Proof.
  destruct 1.
  - apply additive_root.
  - apply additive_get_courses.
  - apply additive_register.
  - apply additive_login.
  - apply additive_payment.
  - apply additive_my_courses.
  - apply additive_course_videos.
  - now apply store_grows_same_db.
Qed.

Lemma reachable_grows (w w' : World) :
  reachable bcrypt_hash bcrypt_compare hmac w w' -> store_grows w w'.
Proof.
  induction 1 as [|w1 w2 _ IH Hstep].
  - apply store_grows_refl.
  - eapply store_grows_trans; [exact IH | now apply step_grows].
Qed.

(** No path leads from [Entitled] back to [NoEntitlement]. *)
Lemma entitlement_never_revoked (w w' : World) (userId courseId : Z) :
  reachable bcrypt_hash bcrypt_compare hmac w w' ->
  entitled (db w) userId courseId -> entitled (db w') userId courseId.
Proof.
  intros Hreach (p & Hin & Hp).
  destruct (reachable_grows w w' Hreach) as (_ & Hpay & _).
  exists p; split; auto.
Qed.

(** Once purchased, the course's videos are served in every later world in
    which the store answers. *)
Lemma course_videos_after_purchase (u : Identity.t) (courseId : Z) (b : Body.t)
    (w w' : World) :
  Identity.id u <> 0 ->
  entitled (db w) (Identity.id u) courseId ->
  reachable bcrypt_hash bcrypt_compare hmac w w' ->
  healthy w' ->
  course_videos (mkRequest b (Some u) courseId) w' =
  (Ok (res_json (JVideos (filter (fun v => Video.course_id v =? courseId) (videos (db w))))),
   w').
Proof.
  intros Hid Hent Hreach Hw'.
  rewrite (course_videos_entitled u courseId b w' Hid Hw')
    by (eapply entitlement_never_revoked; eauto).
  destruct (reachable_grows w w' Hreach) as (_ & _ & _ & Hv).
  unfold select_videos; now rewrite Hv.
Qed.

End Monotone.

(** ** The example scenario of the specification, run end to end

    Register("Ann", "ann@x.com", "pw123") answers 201; Login answers 200 with
    a token; [GET /course/5/videos] with that token answers 403;
    [POST /payment] for course 5 answers 200; [GET /course/5/videos] then
    answers 200 with the course's videos. *)
Example scenario_end_to_end :
  let w0 := Scenario.world in
  let r1 := register Scenario.hash "salt" (mkRequest Scenario.ann_body None 0) w0 in
  let r2 := login Scenario.compare Scenario.mac
                  (mkRequest (Scenario.login_body "ann@x.com" "pw123") None 0) (snd r1) in
  let watch := mkRequest Scenario.no_body (Some Scenario.ann) 5 in
  let buy := mkRequest (Scenario.buy_body "card") (Some Scenario.ann) 0 in
  let r3 := course_videos watch (snd r2) in
  let r4 := payment buy (snd r3) in
  let r5 := course_videos watch (snd r4) in
  fst r1 = Ok (res_status_json 201
                 (JRegistered "User registered successfully" (Some Scenario.ann_row)))
  /\ fst r2 = Ok (res_json (JLogin "Login successful" Scenario.ann_token Scenario.ann_row))
  /\ verifyToken Scenario.mac "s3cret" 1700000060000 (Some Scenario.ann_token)
                 (mkRequest Scenario.no_body None 5) = inr watch
  /\ verifyToken Scenario.mac "s3cret" 1700003600000 (Some Scenario.ann_token)
                 (mkRequest Scenario.no_body None 5) = inl ExpiredTokenError
  /\ fst r3 = Ok (res_status_json 403
                    (JMessage "Access denied. You have not purchased this course."))
  /\ fst r4 = Ok (res_json (JPayment "Payment successful" (Some 5)))
  /\ fst r5 = Ok (res_json (JVideos [Video.mk 1 5 "intro.mp4"; Video.mk 3 5 "tactics.mp4"])).
Proof. cbv zeta; repeat split. Qed.

(** ** Exceptions, status codes and store access, handler by handler

    [answers], [returns] and [readonly] follow the shape of a computation. *)

Lemma answers_ret {A} (a : A) : answers (ret a).
Proof. intros w; exists a; reflexivity. Qed.

Lemma answers_console_log args : answers (console_log args).
Proof. intros w; exists tt; reflexivity. Qed.

Lemma answers_console_error args : answers (console_error args).
Proof. intros w; exists tt; reflexivity. Qed.

Lemma answers_bind {A B} (m : M A) (k : A -> M B) :
  answers m -> (forall a, answers (k a)) -> answers (bind m k).
Proof.
  intros Hm Hk w; unfold bind; destruct (Hm w) as (a & Ha).
  destruct (m w) as [ra w1]; cbn [fst] in Ha; subst ra; apply Hk.
Qed.

Lemma answers_try_catch {A} (m : M A) (h : string -> M A) :
  (forall e, answers (h e)) -> answers (try_catch m h).
Proof.
  intros Hh w; unfold try_catch.
  destruct (m w) as [[a|e] w1]; [exists a; reflexivity | apply Hh].
Qed.

Lemma returns_ret {A} (P : A -> Prop) (a : A) : P a -> returns P (ret a).
Proof. intros Ha w a' [= <-]; exact Ha. Qed.

Lemma returns_throw {A} (P : A -> Prop) (e : string) : returns P (throw e).
Proof. intros w a [=]. Qed.

Lemma returns_bind {A B} (P : B -> Prop) (m : M A) (k : A -> M B) :
  (forall a, returns P (k a)) -> returns P (bind m k).
Proof.
  intros Hk w b; unfold bind.
  destruct (m w) as [[a|e] w1]; [apply Hk | intros [=]].
Qed.

Lemma returns_try_catch {A} (P : A -> Prop) (m : M A) (h : string -> M A) :
  returns P m -> (forall e, returns P (h e)) -> returns P (try_catch m h).
Proof.
  intros Hm Hh w a; unfold try_catch; specialize (Hm w).
  destruct (m w) as [[a'|e] w1]; [exact (Hm a) | apply Hh].
Qed.

Lemma readonly_ret {A} (a : A) : readonly (ret a).
Proof. intros w; reflexivity. Qed.

Lemma readonly_throw {A} (e : string) : readonly (@throw A e).
Proof. intros w; reflexivity. Qed.

Lemma readonly_console_log args : readonly (console_log args).
Proof. intros w; reflexivity. Qed.

Lemma readonly_console_error args : readonly (console_error args).
Proof. intros w; reflexivity. Qed.

Lemma readonly_process_env : readonly process_env_JWT_SECRET.
Proof. intros w; reflexivity. Qed.

Lemma readonly_jwt_sign hmac payload secret expiresIn :
  readonly (jwt_sign hmac payload secret expiresIn).
Proof. intros w; reflexivity. Qed.

Lemma readonly_reading {A} (q : Db -> A) : readonly (pool_query (reading q)).
Proof.
  intros w; unfold pool_query, reading.
  destruct (faults w) as [|[e|] fs]; reflexivity.
Qed.

Lemma readonly_bind {A B} (m : M A) (k : A -> M B) :
  readonly m -> (forall a, readonly (k a)) -> readonly (bind m k).
Proof.
  intros Hm Hk w; unfold bind; specialize (Hm w).
  destruct (m w) as [[a|e] w1]; cbn [snd] in *; auto.
  now rewrite Hk.
Qed.

Lemma readonly_try_catch {A} (m : M A) (h : string -> M A) :
  readonly m -> (forall e, readonly (h e)) -> readonly (try_catch m h).
Proof.
  intros Hm Hh w; unfold try_catch; specialize (Hm w).
  destruct (m w) as [[a|e] w1]; cbn [snd] in *; auto.
  now rewrite Hh.
Qed.

Create HintDb handler_shape.
#[local] Hint Resolve answers_ret answers_console_log answers_console_error
  readonly_ret readonly_throw readonly_console_log readonly_console_error
  readonly_process_env readonly_jwt_sign readonly_reading returns_throw : handler_shape.

Ltac handler_shape :=
  repeat first
    [ progress auto with handler_shape
    | apply answers_bind
    | apply answers_try_catch
    | apply readonly_bind
    | apply readonly_try_catch
    | apply returns_bind
    | apply returns_try_catch
    | apply returns_ret; cbn; tauto
    | progress cbv zeta
    | match goal with
      | |- forall _, _ => intro
      | |- answers (if ?c then _ else _) => destruct c
      | |- answers (match ?x with _ => _ end) => destruct x
      | |- readonly (if ?c then _ else _) => destruct c
      | |- readonly (match ?x with _ => _ end) => destruct x
      | |- returns _ (if ?c then _ else _) => destruct c
      | |- returns _ (match ?x with _ => _ end) => destruct x
      end ].


(** X2. The status codes each route can answer with: [/register] 201, 400 or
    500; [/login] 200, 400, 401 or 500; [/payment] 200, 403, 409 or 500;
    [/my-courses] 200 or 500; [/course/:id/videos] 200, 403 or 500;
    [/courses] 200 or 500. *)
Theorem handler_status_codes bcrypt_hash bcrypt_compare hmac salt (req : Request) (w : World)
    (r : Response) :
  (fst (register bcrypt_hash salt req w) = Ok r -> In (status r) [201; 400; 500])
  /\ (fst (login bcrypt_compare hmac req w) = Ok r -> In (status r) [200; 400; 401; 500])
  /\ (fst (payment req w) = Ok r -> In (status r) [200; 403; 409; 500])
  /\ (fst (my_courses req w) = Ok r -> In (status r) [200; 500])
  /\ (fst (course_videos req w) = Ok r -> In (status r) [200; 403; 500])
  /\ (fst (get_courses req w) = Ok r -> In (status r) [200; 500]).
Proof.
  repeat apply conj; revert w r.
  - change (returns (fun r => In (status r) [201; 400; 500])
                    (register bcrypt_hash salt req)).
    unfold register; handler_shape.
  - change (returns (fun r => In (status r) [200; 400; 401; 500])
                    (login bcrypt_compare hmac req)).
    unfold login; handler_shape.
  - change (returns (fun r => In (status r) [200; 403; 409; 500]) (payment req)).
    unfold payment; handler_shape.
  - change (returns (fun r => In (status r) [200; 500]) (my_courses req)).
    unfold my_courses; handler_shape.
  - change (returns (fun r => In (status r) [200; 403; 500]) (course_videos req)).
    unfold course_videos; handler_shape.
  - change (returns (fun r => In (status r) [200; 500]) (get_courses req)).
    unfold get_courses; handler_shape.
Qed.

Lemma readonly_login bcrypt_compare hmac req : readonly (login bcrypt_compare hmac req).
Proof. unfold login; handler_shape. Qed.

Lemma readonly_get_courses req : readonly (get_courses req).
Proof. unfold get_courses; handler_shape. Qed.

Lemma readonly_my_courses req : readonly (my_courses req).
Proof. unfold my_courses; handler_shape. Qed.

Lemma readonly_course_videos req : readonly (course_videos req).
Proof. unfold course_videos; handler_shape. Qed.

Lemma readonly_root req : readonly (root req).
Proof. unfold root; handler_shape. Qed.

(** X3. Only [/register] and [/payment] write: [/login], [/courses],
    [/my-courses], [/course/:id/videos] and [/] leave every table as it was,
    whatever the request, the outcome and the state of the store. *)
Theorem reading_routes_leave_store bcrypt_compare hmac (req : Request) (w : World) :
  db (snd (login bcrypt_compare hmac req w)) = db w
  /\ db (snd (get_courses req w)) = db w
  /\ db (snd (my_courses req w)) = db w
  /\ db (snd (course_videos req w)) = db w
  /\ db (snd (root req w)) = db w.
Proof.
  repeat apply conj.
  - apply readonly_login.
  - apply readonly_get_courses.
  - apply readonly_my_courses.
  - apply readonly_course_videos.
  - apply readonly_root.
Qed.

(** ** What the two writing routes write *)

Lemma register_outcome bcrypt_hash salt (req : Request) (w : World) :
  (exists row,
      fst (register bcrypt_hash salt req w) =
      Ok (res_status_json 201 (JRegistered "User registered successfully" (Some row)))
      /\ User.name row = str (Body.name (body req))
      /\ User.email row = str (Body.email (body req))
      /\ User.password row = bcrypt_hash salt 10 (str (Body.password (body req)))
      /\ ~ registered (db w) (User.email row)
      /\ users (db (snd (register bcrypt_hash salt req w))) = users (db w) ++ [row]
      /\ payments (db (snd (register bcrypt_hash salt req w))) = payments (db w)
      /\ courses (db (snd (register bcrypt_hash salt req w))) = courses (db w)
      /\ videos (db (snd (register bcrypt_hash salt req w))) = videos (db w))
  \/
  (exists r,
      fst (register bcrypt_hash salt req w) = Ok r
      /\ status r <> 201
      /\ db (snd (register bcrypt_hash salt req w)) = db w).
Proof.
  unfold register, bind at 1, console_log.
  destruct (negb (truthy (Body.name (body req))) || negb (truthy (Body.email (body req)))
            || negb (truthy (Body.password (body req)))).
  { right; eexists; repeat apply conj; [reflexivity | discriminate | reflexivity]. }
  unfold try_catch, bind, pool_query, reading, console_error, ret;
    cbn [faults db set_console].
  assert (Hfresh : select_users_by_email (str (Body.email (body req))) (db w) = [] ->
                   ~ registered (db w) (str (Body.email (body req))))
    by apply select_users_by_email_nil.
  destruct (faults w) as [|[e|] fs];
    [ | right; eexists; repeat apply conj; [reflexivity | discriminate | reflexivity] | ].
  all: destruct (select_users_by_email (str (Body.email (body req))) (db w)) as [|x l];
    cbn [List.length Nat.ltb Nat.leb set_db faults db];
    [ | right; eexists; repeat apply conj; [reflexivity | discriminate | reflexivity] ].
  - left; eexists; repeat apply conj; try reflexivity; auto.
  - destruct fs as [|[e|] fs];
      [ left; eexists; repeat apply conj; try reflexivity; auto
      | right; eexists; repeat apply conj; [reflexivity | discriminate | reflexivity]
      | left; eexists; repeat apply conj; try reflexivity; auto ].
Qed.

Lemma payment_outcome (req : Request) (w : World) :
  (exists u,
      user req = Some u
      /\ fst (payment req w) =
         Ok (res_json (JPayment "Payment successful" (Body.courseId (body req))))
      /\ select_payments (Identity.id u) (Body.courseId (body req)) (db w) = []
      /\ payments (db (snd (payment req w))) =
         payments (db w) ++ [Payment.mk (Identity.id u) (Body.courseId (body req))
                                        (Body.paymentMethod (body req))]
      /\ users (db (snd (payment req w))) = users (db w)
      /\ courses (db (snd (payment req w))) = courses (db w)
      /\ videos (db (snd (payment req w))) = videos (db w)
      /\ console (snd (payment req w)) =
         console w ++ [(StdOut, [LStr "✅ Payment recorded for user "; LNum (Identity.id u);
                                 LStr ", course "; LOptNum (Body.courseId (body req))])])
  \/
  (exists r,
      fst (payment req w) = Ok r
      /\ status r <> 200
      /\ db (snd (payment req w)) = db w
      /\ forall l, In l (console (snd (payment req w))) ->
                   In l (console w) \/ fst l = StdErr).
Proof.
  unfold payment.
  destruct (user req) as [u|];
    [| right; eexists; repeat apply conj; [reflexivity | discriminate | reflexivity | auto] ].
  destruct (Identity.id u =? 0);
    [ right; eexists; repeat apply conj; [reflexivity | discriminate | reflexivity | auto] | ].
  unfold try_catch, bind, pool_query, reading, writing, console_error, console_log, ret;
    cbn [faults db set_console].
  assert (Herr : forall e l,
             In l (console w ++ [(StdErr, [LStr "❌ Payment error:"; LStr e])]) ->
             In l (console w) \/ fst l = StdErr).
  { intros e l Hin; apply in_app_iff in Hin; destruct Hin as [Hin|[<-|[]]]; auto. }
  destruct (faults w) as [|[e|] fs];
    [ | right; eexists; repeat apply conj;
        [reflexivity | discriminate | reflexivity | apply Herr] | ].
  all: destruct (select_payments (Identity.id u) (Body.courseId (body req)) (db w))
         as [|x l] eqn:Hsel;
    cbn [List.length Nat.ltb Nat.leb set_db faults db];
    [ | right; eexists; repeat apply conj; [reflexivity | discriminate | reflexivity | auto] ].
  - left; exists u; repeat apply conj; first [reflexivity | exact Hsel].
  - destruct fs as [|[e|] fs];
      [ left; exists u; repeat apply conj; first [reflexivity | exact Hsel]
      | right; eexists; repeat apply conj;
        [reflexivity | discriminate | reflexivity | apply Herr]
      | left; exists u; repeat apply conj; first [reflexivity | exact Hsel] ].
Qed.

(** X4. [/register] changes the store only when it answers 201, and then by
    exactly one User row appended: the submitted name and email, the [bcrypt]
    hash (10 rounds) of the password, under an email no row had before.  On
    every other answer, a store failure between the two statements included,
    the store is as it was. *)
Theorem register_writes_only_on_201 bcrypt_hash salt (req : Request) (w : World) :
  (exists row,
      fst (register bcrypt_hash salt req w) =
      Ok (res_status_json 201 (JRegistered "User registered successfully" (Some row)))
      /\ User.name row = str (Body.name (body req))
      /\ User.email row = str (Body.email (body req))
      /\ User.password row = bcrypt_hash salt 10 (str (Body.password (body req)))
      /\ ~ registered (db w) (User.email row)
      /\ users (db (snd (register bcrypt_hash salt req w))) = users (db w) ++ [row]
      /\ payments (db (snd (register bcrypt_hash salt req w))) = payments (db w)
      /\ courses (db (snd (register bcrypt_hash salt req w))) = courses (db w)
      /\ videos (db (snd (register bcrypt_hash salt req w))) = videos (db w))
  \/
  (exists r,
      fst (register bcrypt_hash salt req w) = Ok r
      /\ status r <> 201
      /\ db (snd (register bcrypt_hash salt req w)) = db w).
Proof. apply register_outcome. Qed.

(** X5. [/payment] changes the store only when it answers 200, and then by
    exactly one Entitlement row appended, for a pair the duplicate check found
    no row for; the line "Payment recorded" is on the console only then.  On
    every other answer the store is as it was. *)
Theorem payment_writes_only_on_200 (req : Request) (w : World) :
  (exists u,
      user req = Some u
      /\ fst (payment req w) =
         Ok (res_json (JPayment "Payment successful" (Body.courseId (body req))))
      /\ select_payments (Identity.id u) (Body.courseId (body req)) (db w) = []
      /\ payments (db (snd (payment req w))) =
         payments (db w) ++ [Payment.mk (Identity.id u) (Body.courseId (body req))
                                        (Body.paymentMethod (body req))]
      /\ users (db (snd (payment req w))) = users (db w)
      /\ courses (db (snd (payment req w))) = courses (db w)
      /\ videos (db (snd (payment req w))) = videos (db w)
      /\ console (snd (payment req w)) =
         console w ++ [(StdOut, [LStr "✅ Payment recorded for user "; LNum (Identity.id u);
                                 LStr ", course "; LOptNum (Body.courseId (body req))])])
  \/
  (exists r,
      fst (payment req w) = Ok r
      /\ status r <> 200
      /\ db (snd (payment req w)) = db w
      /\ forall l, In l (console (snd (payment req w))) ->
                   In l (console w) \/ fst l = StdErr).
Proof. apply payment_outcome. Qed.

(** ** Uniqueness, kept by check-then-insert as long as requests run one
    after another *)

Lemma select_payments_same_rows userId courseId (d d' : Db) :
  payments d' = payments d ->
  select_payments userId courseId d' = select_payments userId courseId d.
Proof. unfold select_payments; now intros ->. Qed.

Lemma unique_emails_same_users (d d' : Db) :
  users d' = users d -> unique_emails d -> unique_emails d'.
Proof. unfold unique_emails; now intros ->. Qed.

Lemma one_row_per_pair_same_rows (d d' : Db) :
  payments d' = payments d -> one_row_per_pair d -> one_row_per_pair d'.
Proof.
  intros E H u c; rewrite (select_payments_same_rows u (Some c) d d' E); apply H.
Qed.

Lemma unique_emails_append (us : list User.t) (row : User.t) :
  NoDup (map User.email us) ->
  (forall u, In u us -> User.email u <> User.email row) ->
  NoDup (map User.email (us ++ [row])).
Proof.
  intros Hu Hfresh; rewrite map_app; apply NoDup_app; auto.
  - repeat constructor; intros [].
  - intros a Hin [<-|[]]; apply in_map_iff in Hin.
    destruct Hin as (u & Hmail & Hin); exact (Hfresh u Hin Hmail).
Qed.

Lemma register_keeps_unique_emails bcrypt_hash salt (req : Request) (w : World) :
  unique_emails (db w) -> unique_emails (db (snd (register bcrypt_hash salt req w))).
Proof.
  intros Hu.
  destruct (register_outcome bcrypt_hash salt req w)
    as [(row & _ & _ & _ & _ & Hfresh & Husers & _) | (r & _ & _ & Hdb)].
  - unfold unique_emails; rewrite Husers.
    apply unique_emails_append; auto.
    intros u Hin Hmail; apply Hfresh; now exists u.
  - now rewrite Hdb.
Qed.

Lemma register_keeps_payments bcrypt_hash salt (req : Request) (w : World) :
  payments (db (snd (register bcrypt_hash salt req w))) = payments (db w).
Proof.
  destruct (register_outcome bcrypt_hash salt req w)
    as [(row & _ & _ & _ & _ & _ & _ & Hp & _) | (r & _ & _ & Hdb)]; congruence.
Qed.

Lemma payment_keeps_users (req : Request) (w : World) :
  users (db (snd (payment req w))) = users (db w).
Proof.
  destruct (payment_outcome req w)
    as [(u & _ & _ & _ & _ & Hu & _) | (r & _ & _ & Hdb & _)]; congruence.
Qed.

Lemma payment_keeps_one_row_per_pair (req : Request) (w : World) :
  one_row_per_pair (db w) -> one_row_per_pair (db (snd (payment req w))).
Proof.
  intros Hone.
  destruct (payment_outcome req w)
    as [(u & _ & _ & Hnone & Hrows & _) | (r & _ & _ & Hdb & _)];
    [|now rewrite Hdb].
  intros userId courseId; unfold select_payments; rewrite Hrows, filter_app, length_app.
  cbn [filter Payment.user_id Payment.course_id].
  destruct ((Identity.id u =? userId)
            && sql_eq_Z (Body.courseId (body req)) (Some courseId)) eqn:Hmatch.
  - apply andb_true_iff in Hmatch; destruct Hmatch as (Hu & Hc).
    apply Z.eqb_eq in Hu; subst userId.
    assert (Hcid : Body.courseId (body req) = Some courseId).
    { unfold sql_eq_Z in Hc; destruct (Body.courseId (body req)); [|discriminate].
      apply Z.eqb_eq in Hc; now subst. }
    rewrite Hcid in Hnone; unfold select_payments in Hnone; rewrite Hnone.
    cbn; lia.
  - cbn [List.length]; rewrite Nat.add_0_r; apply Hone.
Qed.

Section Invariants.

Variable bcrypt_hash : string -> Z -> string -> string.
Variable bcrypt_compare : string -> string -> bool.
Variable hmac : string -> Claims.t -> string.

Lemma step_keeps_unique_emails (w w' : World) :
  step bcrypt_hash bcrypt_compare hmac w w' ->
  unique_emails (db w) -> unique_emails (db w').
Proof.
  destruct 1 as [req|req|salt req|req|req|req|req|w' Hdb]; intros Hu.
  - now rewrite readonly_root.
  - now rewrite readonly_get_courses.
  - now apply register_keeps_unique_emails.
  - now rewrite readonly_login.
  - eapply unique_emails_same_users; [apply payment_keeps_users | exact Hu].
  - now rewrite readonly_my_courses.
  - now rewrite readonly_course_videos.
  - now rewrite Hdb.
Qed.

Lemma step_keeps_one_row_per_pair (w w' : World) :
  step bcrypt_hash bcrypt_compare hmac w w' ->
  one_row_per_pair (db w) -> one_row_per_pair (db w').
Proof.
  destruct 1 as [req|req|salt req|req|req|req|req|w' Hdb]; intros Hone.
  - now rewrite readonly_root.
  - now rewrite readonly_get_courses.
  - eapply one_row_per_pair_same_rows; [apply register_keeps_payments | exact Hone].
  - now rewrite readonly_login.
  - now apply payment_keeps_one_row_per_pair.
  - now rewrite readonly_my_courses.
  - now rewrite readonly_course_videos.
  - now rewrite Hdb.
Qed.

(** X6. Emails stay unique: from a store in which no two User rows share an
    email, no sequence of requests served one after another, in any order and
    with the store failing at any point, leads to a store in which two do. *)
Theorem emails_stay_unique (w w' : World) :
  reachable bcrypt_hash bcrypt_compare hmac w w' ->
  unique_emails (db w) -> unique_emails (db w').
Proof.
  induction 1 as [|w1 w2 _ IH Hstep]; intros Hu; auto.
  eapply step_keeps_unique_emails; eauto.
Qed.

(** X7. Entitlements stay unique: from a store with at most one Entitlement
    row per (user, course) pair, no sequence of requests served one after
    another leads to a store with two rows for a pair. *)
Theorem entitlements_stay_unique (w w' : World) :
  reachable bcrypt_hash bcrypt_compare hmac w w' ->
  one_row_per_pair (db w) -> one_row_per_pair (db w').
Proof.
  induction 1 as [|w1 w2 _ IH Hstep]; intros Hone; auto.
  eapply step_keeps_one_row_per_pair; eauto.
Qed.

End Invariants.

Lemma emails_stay_unique_witness :
  unique_emails
    (db (snd (register Scenario.hash "pepper" (mkRequest Scenario.ann_body None 0)
                       Scenario.world_registered))).
Proof.
  apply (emails_stay_unique Scenario.hash Scenario.compare Scenario.mac Scenario.world).
  - eapply reachable_step; [eapply reachable_step; [apply reachable_here|]|].
    + exact (step_register Scenario.hash Scenario.compare Scenario.mac Scenario.world
               "salt" (mkRequest Scenario.ann_body None 0)).
    + exact (step_register Scenario.hash Scenario.compare Scenario.mac
               Scenario.world_registered "pepper" (mkRequest Scenario.ann_body None 0)).
  - constructor.
Defined.

Lemma entitlements_stay_unique_witness :
  one_row_per_pair
    (db (snd (payment (mkRequest (Scenario.buy_body "upi") (Some Scenario.ann) 0)
                      Scenario.world_paid))).
Proof.
  apply (entitlements_stay_unique Scenario.hash Scenario.compare Scenario.mac Scenario.world).
  - eapply reachable_step; [eapply reachable_step; [apply reachable_here|]|].
    + exact (step_payment Scenario.hash Scenario.compare Scenario.mac Scenario.world
               (mkRequest (Scenario.buy_body "card") (Some Scenario.ann) 0)).
    + exact (step_payment Scenario.hash Scenario.compare Scenario.mac Scenario.world_paid
               (mkRequest (Scenario.buy_body "upi") (Some Scenario.ann) 0)).
  - intros userId courseId; cbn; lia.
Defined.

(** ** [GET /my-courses] lists a purchased course once *)

Lemma flat_map_NoDup {A} (f : A -> list A) (l : list A) :
  NoDup l -> (forall x, f x = [] \/ f x = [x]) -> NoDup (flat_map f l).
Proof.
  intros Hl Hf; induction Hl as [|a l Hnotin Hl IH]; cbn [flat_map]; [constructor|].
  destruct (Hf a) as [-> | ->]; cbn [app]; auto.
  constructor; auto.
  intros Hin; apply in_flat_map in Hin; destruct Hin as (x & Hx & Hax).
  destruct (Hf x) as [E|E]; rewrite E in Hax; [destruct Hax|].
  destruct Hax as [<-|[]]; contradiction.
Qed.

Lemma select_my_courses_NoDup (userId : Z) (d : Db) :
  NoDup (courses d) -> one_row_per_pair d -> NoDup (select_my_courses userId d).
Proof.
  intros Hc Hone; unfold select_my_courses; apply flat_map_NoDup; auto.
  intros c; specialize (Hone userId (Course.id c)); unfold select_payments in Hone.
  rewrite (filter_ext
             (fun p => sql_eq_Z (Payment.course_id p) (Some (Course.id c))
                       && (Payment.user_id p =? userId))
             (fun p => (Payment.user_id p =? userId)
                       && sql_eq_Z (Payment.course_id p) (Some (Course.id c))))
    by (intros p; apply andb_comm).
  destruct (filter _ (payments d)) as [|p [|q l]]; cbn in *; auto; lia.
Qed.

(** X8. When the Course rows are distinct and the store holds at most one
    Entitlement row per (user, course) pair, the [purchasedCourses] of a
    [/my-courses] answer never lists a course twice. *)
Theorem my_courses_lists_each_course_once (req : Request) (w : World) (rows : list Course.t) :
  NoDup (courses (db w)) ->
  one_row_per_pair (db w) ->
  fst (my_courses req w) = Ok (res_json (JPurchased rows)) ->
  NoDup rows.
Proof.
  intros Hc Hone; unfold my_courses.
  destruct (user req) as [u|]; [|intros [=]].
  unfold try_catch, bind, pool_query, reading, console_error, ret.
  destruct (faults w) as [|[e|] fs]; cbn [fst]; intros [= <-];
    now apply select_my_courses_NoDup.
Qed.

Lemma my_courses_lists_each_course_once_witness :
  NoDup [Course.mk 5 "Proof engineering"].
Proof.
  apply (my_courses_lists_each_course_once
           (mkRequest Scenario.no_body (Some Scenario.ann) 0) Scenario.world_paid).
  - repeat constructor; cbn; intuition discriminate.
  - intros userId courseId; unfold select_payments.
    change (payments (db Scenario.world_paid)) with [Payment.mk 1 (Some 5) (Some "card")].
    cbn [filter]; destruct (_ && _); cbn; lia.
  - reflexivity.
Defined.

(** ** When the store fails *)

(** X9. When the store refuses a route's first statement with the message
    [e]: [/register] and [/login] answer 500 and send [e] itself to the
    client in the [error] field; [/payment], [/my-courses],
    [/course/:id/videos] and [/courses] answer 500 with a fixed message that
    does not carry [e]. *)
Theorem store_failure_answers bcrypt_hash bcrypt_compare hmac salt (req : Request)
    (w : World) (e : string) (fs : list (option string)) :
  faults w = Some e :: fs ->
  (truthy (Body.name (body req)) = true ->
   truthy (Body.email (body req)) = true ->
   truthy (Body.password (body req)) = true ->
   fst (register bcrypt_hash salt req w) =
   Ok (res_status_json 500 (JMessageError "Database error" e)))
  /\ (truthy (Body.email (body req)) = true ->
      truthy (Body.password (body req)) = true ->
      fst (login bcrypt_compare hmac req w) =
      Ok (res_status_json 500 (JMessageError "Server error" e)))
  /\ (forall u, user req = Some u -> Identity.id u <> 0 ->
                fst (payment req w) = Ok (res_status_json 500 (JMessage "Server error"))
                /\ fst (course_videos req w) =
                   Ok (res_status_json 500 (JMessage "Server error")))
  /\ (forall u, user req = Some u ->
                fst (my_courses req w) = Ok (res_status_json 500 (JMessage "Server error")))
  /\ fst (get_courses req w) = Ok (res_status_json 500 (JMessage "Error fetching courses")).
Proof.
  intros Hf; repeat apply conj.
  - intros Hn He Hp; unfold register, bind at 1, console_log.
    rewrite Hn, He, Hp; cbn [negb orb].
    unfold try_catch, bind, pool_query; cbn [faults set_console]; now rewrite Hf.
  - intros He Hp; unfold login, bind at 1, console_log.
    rewrite He, Hp; cbn [negb orb].
    unfold try_catch, bind, pool_query; cbn [faults set_console]; now rewrite Hf.
  - intros u Hu Hid; split.
    + unfold payment; rewrite Hu.
      destruct (Z.eqb_spec (Identity.id u) 0); [contradiction|].
      unfold try_catch, bind, pool_query; now rewrite Hf.
    + unfold course_videos; rewrite Hu.
      destruct (Z.eqb_spec (Identity.id u) 0); [contradiction|].
      unfold try_catch, bind, pool_query; now rewrite Hf.
  - intros u Hu; unfold my_courses; rewrite Hu.
    unfold try_catch, bind, pool_query; now rewrite Hf.
  - unfold get_courses, try_catch, bind, pool_query; now rewrite Hf.
Qed.

Lemma store_failure_answers_witness :
  fst (register Scenario.hash "salt" (mkRequest Scenario.ann_body None 0) Outage.world_down) =
  Ok (res_status_json 500 (JMessageError "Database error" "connection refused"))
  /\ fst (get_courses (mkRequest Scenario.ann_body None 0) Outage.world_down) =
     Ok (res_status_json 500 (JMessage "Error fetching courses")).
Proof.
  destruct (store_failure_answers Scenario.hash Scenario.compare Scenario.mac "salt"
              (mkRequest Scenario.ann_body None 0) Outage.world_down
              "connection refused" [] eq_refl)
    as (Hregister & _ & _ & _ & Hcourses).
  split; [apply Hregister; reflexivity | exact Hcourses].
Defined.

Lemma select_payments_null (userId : Z) (d : Db) :
  select_payments userId None d = [].
Proof.
  unfold select_payments; induction (payments d) as [|p l IH]; cbn [filter]; auto.
  replace (sql_eq_Z (Payment.course_id p) None) with false
    by (unfold sql_eq_Z; now destruct (Payment.course_id p)).
  now rewrite andb_false_r.
Qed.

(** X10. [/payment] does not check that the body names a course: a request
    without [courseId] is never answered 409, since the duplicate check
    compares against NULL and finds nothing. *)
Theorem payment_without_course_never_duplicate (req : Request) (w : World) (r : Response) :
  Body.courseId (body req) = None ->
  fst (payment req w) = Ok r ->
  status r <> 409.
Proof.
  intros Hnone; unfold payment; rewrite Hnone.
  destruct (user req) as [u|]; [|intros [= <-]; discriminate].
  destruct (Identity.id u =? 0); [intros [= <-]; discriminate|].
  unfold try_catch, bind, pool_query, reading, writing, console_error, console_log, ret;
    cbn [faults db set_console].
  rewrite select_payments_null.
  destruct (faults w) as [|[e|] fs]; cbn [List.length Nat.ltb Nat.leb set_db faults];
    try (intros [= <-]; discriminate).
  destruct fs as [|[e|] fs]; intros [= <-]; discriminate.
Qed.

Lemma payment_without_course_never_duplicate_witness :
  status (res_json (JPayment "Payment successful" None)) <> 409.
Proof.
  apply (payment_without_course_never_duplicate
           (mkRequest Scenario.no_body (Some Scenario.ann) 0) Scenario.world_paid).
  - reflexivity.
  - reflexivity.
Defined.

(** ** The CORS origin check *)

Lemma includes_In (l : list string) (s : string) : includes l s = true <-> In s l.
Proof.
  unfold includes; rewrite existsb_exists; split.
  - intros (x & Hin & Heq); apply String.eqb_eq in Heq; now subst.
  - intros Hin; exists s; split; auto; apply String.eqb_refl.
Qed.

(** X11. The CORS origin check lets a request through exactly when it has no
    (or an empty) [Origin] header or its origin is, character for character,
    one of the three allowed ones; it logs the origin exactly when it refuses,
    and it never touches the store. *)
Theorem cors_origin_verdict (origin : option string) (w : World) :
  (fst (cors_origin origin w) = Ok CorsAllow <->
   truthy origin = false \/ In (str origin) allowedOrigins)
  /\ (fst (cors_origin origin w) = Ok CorsAllow \/
      fst (cors_origin origin w) = Ok (CorsError "Not allowed by CORS"))
  /\ (fst (cors_origin origin w) = Ok CorsAllow -> snd (cors_origin origin w) = w)
  /\ (fst (cors_origin origin w) = Ok (CorsError "Not allowed by CORS") ->
      console (snd (cors_origin origin w)) =
      console w ++ [(StdOut, [LStr "❌ Blocked by CORS:"; LStr (str origin)])])
  /\ db (snd (cors_origin origin w)) = db w.
Proof.
  unfold cors_origin.
  destruct (truthy origin) eqn:Ht; cbn [negb orb].
  - destruct (includes allowedOrigins (str origin)) eqn:Hin.
    + apply includes_In in Hin.
      repeat apply conj;
        [ intros _; right; exact Hin | intros _; reflexivity | left; reflexivity
        | intros _; reflexivity | intros H; discriminate H | reflexivity ].
    + assert (Hnot : ~ In (str origin) allowedOrigins)
        by (intros Hyes; apply includes_In in Hyes; congruence).
      repeat apply conj;
        [ intros H; discriminate H
        | intros [H|H]; [discriminate H | contradiction]
        | right; reflexivity | intros H; discriminate H
        | intros _; reflexivity | reflexivity ].
  - repeat apply conj;
      [ intros _; left; reflexivity | intros _; reflexivity | left; reflexivity
      | intros _; reflexivity | intros H; discriminate H | reflexivity ].
Qed.

(** ** The login page *)

Lemma getItem_setItem (key : string) (value : LoginPage.Item) (b : LoginPage.Browser) :
  LoginPage.getItem key (LoginPage.setItem key value b) = Some value.
Proof.
  unfold LoginPage.getItem, LoginPage.setItem; cbn; now rewrite String.eqb_refl.
Qed.

(** X12. What [handleLogin] can do to the browser, whatever answers the POST:
    it never edits the form fields; with an empty email or password it only
    sets the error and sends nothing; it writes to [localStorage] and leaves
    the page only for a response in the 200-299 range whose body parses, and
    then it stores whatever [token] and [user] that body has, absent ones
    included, and goes to "/". *)
Theorem handleLogin_outcomes (fetch : Body.t -> Result Response) (b : LoginPage.Browser) :
  LoginPage.email (LoginPage.handleLogin fetch b) = LoginPage.email b
  /\ LoginPage.password (LoginPage.handleLogin fetch b) = LoginPage.password b
  /\ (LoginPage.email b = "" \/ LoginPage.password b = "" ->
      LoginPage.handleLogin fetch b =
      LoginPage.setError "Please enter both email and password" b)
  /\ ((LoginPage.localStorage (LoginPage.handleLogin fetch b) = LoginPage.localStorage b
       /\ LoginPage.location (LoginPage.handleLogin fetch b) = LoginPage.location b)
      \/
      (exists res data,
          fetch (LoginPage.credentials b) = Ok res
          /\ LoginPage.ok res = true
          /\ LoginPage.res_json_parse res = Ok data
          /\ LoginPage.getItem "token" (LoginPage.handleLogin fetch b) =
             Some (LoginPage.ItemToken (LoginPage.data_token data))
          /\ LoginPage.getItem "user" (LoginPage.handleLogin fetch b) =
             Some (LoginPage.ItemUser (LoginPage.data_user data))
          /\ LoginPage.location (LoginPage.handleLogin fetch b) = "/"
          /\ LoginPage.error (LoginPage.handleLogin fetch b) = LoginPage.error b)).
Proof.
  unfold LoginPage.handleLogin; cbn [truthy].
  destruct (String.eqb_spec (LoginPage.email b) "") as [He|He]; cbn [negb orb].
  { repeat apply conj; auto. }
  destruct (String.eqb_spec (LoginPage.password b) "") as [Hp|Hp]; cbn [negb orb].
  { repeat apply conj; auto. }
  destruct (fetch (LoginPage.credentials b)) as [res|err] eqn:Hfetch;
    [|repeat apply conj; auto; intros [|]; contradiction].
  destruct (LoginPage.res_json_parse res) as [data|err] eqn:Hparse;
    [|repeat apply conj; auto; intros [|]; contradiction].
  destruct (LoginPage.ok res) eqn:Hok; cbn [negb];
    [|repeat apply conj; auto; intros [|]; contradiction].
  repeat apply conj; auto; [intros [|]; contradiction|].
  right; exists res, data; repeat apply conj; auto.
Qed.

Section PageAgainstServer.

Variable bcrypt_compare : string -> string -> bool.
Variable hmac : string -> Claims.t -> string.

(** Every way [login] can refuse a request that has both fields. *)
Lemma login_refusal_inv (req : Request) (w : World) (r : Response) :
  truthy (Body.email (body req)) = true ->
  truthy (Body.password (body req)) = true ->
  fst (login bcrypt_compare hmac req w) = Ok r ->
  status r <> 200 ->
  r = res_status_json 401 (JMessage "Invalid email or password")
  \/ r = res_status_json 500 (JMessage "Server misconfiguration")
  \/ exists e, r = res_status_json 500 (JMessageError "Server error" e).
Proof.
  intros He Hp; unfold login, bind at 1, console_log.
  rewrite He, Hp; cbn [negb orb].
  unfold try_catch, bind at 1, pool_query, reading; cbn [faults db set_console].
  destruct (faults w) as [|[e|] fs];
    [ | intros [= <-] _; right; right; now exists e | ].
  all: destruct (select_users_by_email (str (Body.email (body req))) (db w))
         as [|u rest]; cbn [nth_error]; [intros [= <-] _; now left|].
  all: destruct (bcrypt_compare (str (Body.password (body req))) (User.password u));
       cbn [negb]; [|intros [= <-] _; now left].
  all: unfold bind, process_env_JWT_SECRET; cbn [JWT_SECRET set_db set_console].
  all: destruct (truthy (JWT_SECRET w)); cbn [negb];
       [intros [= <-] Hst; now contradiction Hst | intros [= <-] _; right; now left].
Qed.

(** X13. The page against this backend, refused: when both fields are filled
    in and [/login] does not answer 200, the answer is a 401 or a 500, never
    the 400 of the server's own field check; the page shows the server's
    message as its error and neither stores anything nor leaves. *)
Theorem login_page_shows_server_refusal (b : LoginPage.Browser) (w : World) (r : Response) :
  LoginPage.email b <> "" ->
  LoginPage.password b <> "" ->
  post_login bcrypt_compare hmac w (LoginPage.credentials b) = Ok r ->
  status r <> 200 ->
  exists message,
    (status r = 401 /\ message = "Invalid email or password"
     \/ status r = 500 /\ (message = "Server misconfiguration" \/ message = "Server error"))
    /\ LoginPage.data_message (json r) = Some message
    /\ LoginPage.handleLogin (post_login bcrypt_compare hmac w) b =
       LoginPage.setError message b.
Proof.
  intros He Hp Hpost Hst.
  assert (Hguard : negb (truthy (Some (LoginPage.email b)))
                   || negb (truthy (Some (LoginPage.password b))) = false).
  { cbn [truthy]; apply String.eqb_neq in He, Hp; now rewrite He, Hp. }
  unfold LoginPage.handleLogin; rewrite Hguard, Hpost.
  unfold post_login in Hpost.
  destruct (login_refusal_inv (mkRequest (LoginPage.credentials b) None 0) w r)
    as [-> | [-> | (e & ->)]]; auto.
  - cbn [LoginPage.credentials Body.email body truthy].
    apply String.eqb_neq in He; now rewrite He.
  - cbn [LoginPage.credentials Body.password body truthy].
    apply String.eqb_neq in Hp; now rewrite Hp.
  - exists "Invalid email or password"; repeat apply conj; auto.
  - exists "Server misconfiguration"; repeat apply conj; auto.
  - exists "Server error"; repeat apply conj; auto.
Qed.

(** X14. The page against this backend, accepted: when [/login] answers 200,
    the page stores the issued token under "token" and, under "user", the
    whole User row the server sent, a row of the [users] table whose password
    column is the hash the submitted password verified against; then it goes
    to "/". *)
Theorem login_page_stores_token_and_row (b : LoginPage.Browser) (w : World) (r : Response) :
  post_login bcrypt_compare hmac w (LoginPage.credentials b) = Ok r ->
  status r = 200 ->
  LoginPage.email b <> "" ->
  LoginPage.password b <> "" ->
  exists token u,
    json r = JLogin "Login successful" token u
    /\ In u (users (db w))
    /\ User.email u = LoginPage.email b
    /\ bcrypt_compare (LoginPage.password b) (User.password u) = true
    /\ LoginPage.getItem "token" (LoginPage.handleLogin (post_login bcrypt_compare hmac w) b)
       = Some (LoginPage.ItemToken (Some token))
    /\ LoginPage.getItem "user" (LoginPage.handleLogin (post_login bcrypt_compare hmac w) b)
       = Some (LoginPage.ItemUser (Some u))
    /\ LoginPage.location (LoginPage.handleLogin (post_login bcrypt_compare hmac w) b) = "/".
Proof.
  intros Hpost Hst He Hp.
  assert (Hguard : negb (truthy (Some (LoginPage.email b)))
                   || negb (truthy (Some (LoginPage.password b))) = false).
  { cbn [truthy]; apply String.eqb_neq in He, Hp; now rewrite He, Hp. }
  unfold LoginPage.handleLogin; rewrite Hguard, Hpost.
  unfold post_login in Hpost.
  assert (Hrun : login bcrypt_compare hmac (mkRequest (LoginPage.credentials b) None 0) w =
                 (Ok r, snd (login bcrypt_compare hmac
                                   (mkRequest (LoginPage.credentials b) None 0) w)))
    by (rewrite <- Hpost; apply surjective_pairing).
  destruct (login_success_inv bcrypt_compare hmac _ w _ r Hrun Hst)
    as (u & rest & _ & _ & Hsel & Hc & _ & ->).
  cbn [LoginPage.credentials Body.email Body.password body str] in Hsel, Hc.
  assert (Hin : In u (select_users_by_email (LoginPage.email b) (db w)))
    by (rewrite Hsel; left; reflexivity).
  apply in_select_users_by_email in Hin; destruct Hin as (Hin & Hmail).
  cbv zeta; cbn [LoginPage.res_json_parse json res_json LoginPage.ok status].
  change ((200 <=? 200) && (200 <=? 299)) with true; cbn [negb].
  eexists; exists u; repeat apply conj; auto.
Qed.

End PageAgainstServer.

Lemma login_page_shows_server_refusal_witness :
  LoginPage.handleLogin (post_login Scenario.compare Scenario.mac Scenario.world_registered)
                        Page.ann_mistyped =
  LoginPage.setError "Invalid email or password" Page.ann_mistyped.
Proof.
  destruct (login_page_shows_server_refusal Scenario.compare Scenario.mac
              Page.ann_mistyped Scenario.world_registered
              (res_status_json 401 (JMessage "Invalid email or password")))
    as (message & _ & Hmessage & Hpage).
  - discriminate.
  - discriminate.
  - reflexivity.
  - discriminate.
  - injection Hmessage as <-; exact Hpage.
Defined.

Lemma login_page_stores_token_and_row_witness :
  LoginPage.getItem "token"
    (LoginPage.handleLogin (post_login Scenario.compare Scenario.mac Scenario.world_registered)
                           Page.ann)
  = Some (LoginPage.ItemToken (Some Scenario.ann_token))
  /\ LoginPage.getItem "user"
       (LoginPage.handleLogin (post_login Scenario.compare Scenario.mac
                                          Scenario.world_registered) Page.ann)
     = Some (LoginPage.ItemUser (Some Scenario.ann_row)).
Proof.
  destruct (login_page_stores_token_and_row Scenario.compare Scenario.mac
              Page.ann Scenario.world_registered
              (res_json (JLogin "Login successful" Scenario.ann_token Scenario.ann_row)))
    as (token & u & Hjson & _ & _ & _ & Htoken & Huser & _).
  - reflexivity.
  - reflexivity.
  - discriminate.
  - discriminate.
  - injection Hjson as <- <-; split; assumption.
Defined.

(** ** Nothing is ever deleted *)

(** X15. No route deletes or rewrites a row: along any sequence of requests,
    every User row and every Entitlement row of the starting store is still
    there at the end, and the Course and Video tables are the same. *)
Theorem rows_are_never_removed bcrypt_hash bcrypt_compare hmac (w w' : World) :
  reachable bcrypt_hash bcrypt_compare hmac w w' ->
  (forall u, In u (users (db w)) -> In u (users (db w')))
  /\ (forall p, In p (payments (db w)) -> In p (payments (db w')))
  /\ courses (db w') = courses (db w)
  /\ videos (db w') = videos (db w).
Proof.
  intros Hreach.
  destruct (reachable_grows bcrypt_hash bcrypt_compare hmac w w' Hreach)
    as (Hu & Hp & Hc & Hv).
  repeat apply conj; auto.
Qed.

Lemma rows_are_never_removed_witness :
  In (Payment.mk 1 (Some 5) (Some "card"))
     (payments (db (snd (register Scenario.hash "salt" (mkRequest Scenario.ann_body None 0)
                                  Scenario.world_paid)))).
Proof.
  destruct (rows_are_never_removed Scenario.hash Scenario.compare Scenario.mac
              Scenario.world_paid
              (snd (register Scenario.hash "salt" (mkRequest Scenario.ann_body None 0)
                             Scenario.world_paid)))
    as (_ & Hpayments & _).
  - eapply reachable_step; [apply reachable_here|].
    exact (step_register Scenario.hash Scenario.compare Scenario.mac Scenario.world_paid
             "salt" (mkRequest Scenario.ann_body None 0)).
  - apply Hpayments; left; reflexivity.
Defined.

(** X16. Access, once bought, is permanent: if an Entitlement row exists for
    [(u.id, courseId)], then after any sequence of requests
    [GET /course/:id/videos] by [u] still answers 200 with the course's
    videos, provided the store answers. *)
Theorem purchased_videos_stay_available bcrypt_hash bcrypt_compare hmac
    (u : Identity.t) (courseId : Z) (b : Body.t) (w w' : World) :
  Identity.id u <> 0 ->
  entitled (db w) (Identity.id u) courseId ->
  reachable bcrypt_hash bcrypt_compare hmac w w' ->
  healthy w' ->
  course_videos (mkRequest b (Some u) courseId) w' =
  (Ok (res_json (JVideos (filter (fun v => Video.course_id v =? courseId) (videos (db w))))),
   w').
Proof.
  intros Hid Hent Hreach Hw'.
  destruct (reachable_grows bcrypt_hash bcrypt_compare hmac w w' Hreach)
    as (_ & Hp & _ & Hv).
  destruct Hent as (p & Hin & Hpu & Hpc).
  rewrite (course_videos_entitled u courseId b w' Hid Hw')
    by (exists p; repeat split; auto).
  unfold select_videos; now rewrite Hv.
Qed.

Lemma purchased_videos_stay_available_witness :
  fst (course_videos (mkRequest Scenario.no_body (Some Scenario.ann) 5)
         (snd (login Scenario.compare Scenario.mac
                     (mkRequest (Scenario.login_body "ann@x.com" "pw123") None 0)
                     Scenario.world_paid))) =
  Ok (res_json (JVideos [Video.mk 1 5 "intro.mp4"; Video.mk 3 5 "tactics.mp4"])).
Proof.
  rewrite (purchased_videos_stay_available Scenario.hash Scenario.compare Scenario.mac
             Scenario.ann 5 Scenario.no_body Scenario.world_paid).
  - reflexivity.
  - discriminate.
  - exists (Payment.mk 1 (Some 5) (Some "card")); repeat split; left; reflexivity.
  - eapply reachable_step; [apply reachable_here|].
    exact (step_login Scenario.hash Scenario.compare Scenario.mac Scenario.world_paid
             (mkRequest (Scenario.login_body "ann@x.com" "pw123") None 0)).
  - reflexivity.
Defined.

(** ** Further instances *)

Lemma handler_status_codes_witness :
  In (status (res_status_json 201
                (JRegistered "User registered successfully" (Some Scenario.ann_row))))
     [201; 400; 500].
Proof.
  apply (handler_status_codes Scenario.hash Scenario.compare Scenario.mac "salt"
           (mkRequest Scenario.ann_body None 0) Scenario.world).
  reflexivity.
Defined.

Lemma cors_origin_verdict_witness :
  fst (cors_origin (Some "http://localhost:3000") Scenario.world) = Ok CorsAllow
  /\ fst (cors_origin (Some "http://localhost:3000/") Scenario.world) <> Ok CorsAllow.
Proof.
  split.
  - apply (cors_origin_verdict (Some "http://localhost:3000") Scenario.world).
    right; left; reflexivity.
  - intros Hallow.
    apply (proj1 (proj1 (cors_origin_verdict (Some "http://localhost:3000/") Scenario.world)))
      in Hallow.
    unfold allowedOrigins in Hallow; cbn [In str] in Hallow.
    destruct Hallow as [H|[H|[H|[H|[]]]]]; discriminate H.
Defined.

Lemma handleLogin_outcomes_witness :
  LoginPage.handleLogin (post_login Scenario.compare Scenario.mac Scenario.world)
                        (LoginPage.mkBrowser "ann@x.com" "" "" [] "/login" []) =
  LoginPage.setError "Please enter both email and password"
                     (LoginPage.mkBrowser "ann@x.com" "" "" [] "/login" []).
Proof.
  apply (handleLogin_outcomes (post_login Scenario.compare Scenario.mac Scenario.world)
           (LoginPage.mkBrowser "ann@x.com" "" "" [] "/login" [])).
  right; reflexivity.
Defined.
